(** * Daily briefing emailer: a shallow embedding of [daily_briefing_emailer.py]

    The script fetches weather, news and a word of the day over HTTP, renders
    them into an HTML page and hands the page to an SMTP session.  The
    embedding keeps the script's structure: Python values as an inductive
    type, exceptions as a result type, the outside world (HTTP requests, the
    SMTP session, standard output) as an explicit state threaded through a
    small state-and-exception monad, and [try]/[except] as a combinator. *)

From Stdlib Require Import String Ascii List ZArith Bool Arith Lia.
From Stdlib Require Import PrimFloat DecimalString.
Import ListNotations.
Open Scope string_scope.
Set Warnings "-register-all".

(** ** Python values *)

(** What [response.json()] can return, and what the script builds from it:
    [None], [bool], [int], [float], [str], [list], and [dict] with [str] keys.
    A [dict] keeps its insertion order, as Python's does; the first binding of
    a key is the one a lookup sees. *)
Inductive value : Type :=
| VNone
| VBool (b : bool)
| VInt (n : Z)
| VFloat (x : float)
| VStr (s : string)
| VList (items : list value)
| VDict (fields : list (string * value)).

Definition dict := list (string * value).

Fixpoint dict_get (k : string) (d : dict) : option value :=
  match d with
  | [] => None
  | (k', v) :: rest => if String.eqb k k' then Some v else dict_get k rest
  end.

Definition dict_has (k : string) (d : dict) : bool :=
  match dict_get k d with Some _ => true | None => false end.

(** [d[k] = v]: an existing key keeps its place and gets the new value, a new
    key goes to the end. *)
Fixpoint dict_set (k : string) (v : value) (d : dict) : dict :=
  match d with
  | [] => [(k, v)]
  | (k', v') :: rest =>
      if String.eqb k k' then (k', v) :: rest else (k', v') :: dict_set k v rest
  end.

Definition dict_keys (d : dict) : list string := map fst d.

(** [type(v).__name__] *)
Definition type_name (v : value) : string :=
  match v with
  | VNone => "NoneType"
  | VBool _ => "bool"
  | VInt _ => "int"
  | VFloat _ => "float"
  | VStr _ => "str"
  | VList _ => "list"
  | VDict _ => "dict"
  end.

(** ** Exceptions *)

Inductive exn_class : Type :=
| TransportError          (* httpx: the request could not be carried out *)
| JSONDecodeError
| KeyError
| IndexError
| TypeError
| AttributeError
| SMTPAuthenticationError
| SMTPException
| OSError.

(** Every class above derives from [Exception]; [httpx.HTTPStatusError] is
    kept apart because its handlers read [e.response.status_code]. *)
Inductive exn : Type :=
| HTTPStatusError (status_code : nat) (message : string)
| PyError (cls : exn_class) (message : string).

(** [str(e)] *)
Definition exn_str (e : exn) : string :=
  match e with
  | HTTPStatusError _ m => m
  | PyError _ m => m
  end.

Inductive result (A : Type) : Type :=
| Returned (a : A)
| Raised (e : exn).
Arguments Returned {A} a.
Arguments Raised {A} e.

Definition rbind {A B} (r : result A) (k : A -> result B) : result B :=
  match r with
  | Returned a => k a
  | Raised e => Raised e
  end.

(** ** Strings *)

(** A double quote, for the text of the HTML template and of [repr]s. *)
Definition dq : string := String (ascii_of_nat 34) EmptyString.

(** A line break. *)
Definition nl : string := String (ascii_of_nat 10) EmptyString.

(** Decimal text of a non-negative [int], as an f-string prints it. *)
Definition string_of_nat (n : nat) : string :=
  NilEmpty.string_of_uint (Nat.to_uint n).

(** [sub in s] for two [str]s. *)
Definition str_contains (sub s : string) : bool :=
  match String.index 0 sub s with Some _ => true | None => false end.

(** Strings are held as UTF-8 bytes; a Python [str] is a sequence of code
    points, so indexing and iteration regroup the bytes. *)
Definition is_continuation (c : ascii) : bool :=
  ((128 <=? nat_of_ascii c)%nat && (nat_of_ascii c <? 192)%nat)%bool.

Fixpoint code_points_aux (s : string) : string * list string :=
  match s with
  | EmptyString => (EmptyString, [])
  | String c rest =>
      let '(pending, cps) := code_points_aux rest in
      if is_continuation c then (String c pending, cps)
      else (EmptyString, String c pending :: cps)
  end.

Definition code_points (s : string) : list string :=
  let '(pending, cps) := code_points_aux s in
  match pending with
  | EmptyString => cps
  | _ => pending :: cps
  end.

(** ** Subscripting, membership, iteration, methods *)

Definition not_subscriptable {A} (v : value) : result A :=
  Raised (PyError TypeError ("'" ++ type_name v ++ "' object is not subscriptable")).

(** [v[k]] with a [str] key [k]. *)
Definition subscript (v : value) (k : string) : result value :=
  match v with
  | VDict d =>
      match dict_get k d with
      | Some x => Returned x
      | None => Raised (PyError KeyError ("'" ++ k ++ "'"))
      end
  | VList _ =>
      Raised (PyError TypeError "list indices must be integers or slices, not str")
  | VStr _ =>
      Raised (PyError TypeError "string indices must be integers, not 'str'")
  | _ => not_subscriptable v
  end.

(** [v[0]] *)
Definition subscript0 (v : value) : result value :=
  match v with
  | VList (x :: _) => Returned x
  | VList [] => Raised (PyError IndexError "list index out of range")
  | VStr s =>
      match code_points s with
      | c :: _ => Returned (VStr c)
      | [] => Raised (PyError IndexError "string index out of range")
      end
  | VDict _ => Raised (PyError KeyError "0")
  | _ => not_subscriptable v
  end.

(** [v1 == v2] where [v1] is the [str] [k]: only an equal [str] compares equal. *)
Definition eq_str (k : string) (v : value) : bool :=
  match v with
  | VStr s => String.eqb k s
  | _ => false
  end.

(** [k in v] with a [str] [k]. *)
Definition contains_key (k : string) (v : value) : result bool :=
  match v with
  | VDict d => Returned (dict_has k d)
  | VStr s => Returned (str_contains k s)
  | VList l => Returned (existsb (eq_str k) l)
  | _ =>
      Raised (PyError TypeError
                ("argument of type '" ++ type_name v ++ "' is not iterable"))
  end.

Definition no_attribute {A} (v : value) (name : string) : result A :=
  Raised (PyError AttributeError
            ("'" ++ type_name v ++ "' object has no attribute '" ++ name ++ "'")).

(** [v.get(k, default)] *)
Definition get_default (v : value) (k : string) (default : value) : result value :=
  match v with
  | VDict d =>
      match dict_get k d with
      | Some x => Returned x
      | None => Returned default
      end
  | _ => no_attribute v "get"
  end.

(** [v.items()], as the list a comprehension walks through. *)
Definition items (v : value) : result (list (string * value)) :=
  match v with
  | VDict d => Returned d
  | _ => no_attribute v "items"
  end.

(** [for x in v], as the list of the values [x] takes. *)
Definition iterate (v : value) : result (list value) :=
  match v with
  | VList l => Returned l
  | VStr s => Returned (map VStr (code_points s))
  | VDict d => Returned (map VStr (dict_keys d))
  | _ =>
      Raised (PyError TypeError ("'" ++ type_name v ++ "' object is not iterable"))
  end.

(** A list comprehension whose element expression may raise: elements are
    evaluated left to right and the first exception ends the comprehension. *)
Fixpoint comprehension {A B} (f : A -> result B) (xs : list A) : result (list B) :=
  match xs with
  | [] => Returned []
  | x :: rest =>
      rbind (f x) (fun y => rbind (comprehension f rest) (fun ys => Returned (y :: ys)))
  end.

(** Truth value of an optional [str] ([os.getenv] gives [None] when the
    variable is unset): [None] and the empty string are false. *)
Definition truthy (s : option string) : bool :=
  match s with
  | None => false
  | Some EmptyString => false
  | Some _ => true
  end.

(** ** The outside world *)

(** The answer to one [client.get(url)]. *)
Inductive payload : Type :=
| NotJson (err : string)   (* [response.json()] raises, with this text *)
| Json (v : value).        (* [response.json()] returns [v] *)

Record Response : Type := mkResponse {
  status_code : nat;
  body : payload
}.

Inductive http_outcome : Type :=
| NetworkError (err : string)   (* [client.get] raises, with this text *)
| Answer (r : Response).

Record EmailMessage : Type := mkEmail {
  Subject : string;
  From : string;
  To : string;
  plain_part : string;
  html_part : string
}.

Inductive smtp_event : Type :=
| Connect (host : string) (port : nat)
| StartTLS
| Login (user password : string)
| SendMessage (msg : EmailMessage)
| Quit.

(** What the script does not decide: the answers of the network, of the SMTP
    server and of the clock, and the library texts it only passes on. *)
Record Env : Type := mkEnv {
  (** outcome of the request for [url] made after [n] earlier requests *)
  net : nat -> string -> http_outcome;
  (** [None]: the SMTP step succeeds; [Some e]: it raises [e] *)
  smtp : smtp_event -> option exn;
  (** [datetime.now().strftime(format)] *)
  strftime_now : string -> string;
  (** [str(e)] of the [HTTPStatusError] that [raise_for_status] builds *)
  status_error_message : nat -> string;
  (** what an f-string writes for a value that is not a [str] *)
  py_repr : value -> string;
  (** [s.title()] *)
  str_title : string -> string
}.

(** What the script has done so far, oldest first. *)
Record World : Type := mkWorld {
  http_log : list string;        (* URLs requested *)
  smtp_log : list smtp_event;    (* SMTP steps attempted *)
  stdout : list string           (* lines printed *)
}.

Definition initial_world : World := mkWorld [] [] [].

Definition log_request (url : string) (w : World) : World :=
  mkWorld (http_log w ++ [url]) (smtp_log w) (stdout w).

Definition log_smtp (ev : smtp_event) (w : World) : World :=
  mkWorld (http_log w) (smtp_log w ++ [ev]) (stdout w).

Definition log_print (line : string) (w : World) : World :=
  mkWorld (http_log w) (smtp_log w) (stdout w ++ [line]).

(** ** Computations: state passing with exceptions *)

Definition M (A : Type) : Type := World -> World * result A.

Definition ret {A} (a : A) : M A := fun w => (w, Returned a).

Definition bind {A B} (c : M A) (k : A -> M B) : M B :=
  fun w =>
    match c w with
    | (w', Returned a) => k a w'
    | (w', Raised e) => (w', Raised e)
    end.

Definition lift {A} (r : result A) : M A := fun w => (w, r).

(** [try: body  except ... as e: handler e]; the handler sees every exception,
    and picks the [except] clause by matching on it. *)
Definition try_except {A} (body : M A) (handler : exn -> M A) : M A :=
  fun w =>
    match body w with
    | (w', Returned a) => (w', Returned a)
    | (w', Raised e) => handler e w'
    end.

Declare Scope monad_scope.
Delimit Scope monad_scope with monad.
Notation "x <- c1 ;; c2" := (bind c1 (fun x => c2))
  (at level 61, c1 at next level, right associativity) : monad_scope.
Notation "c1 ;; c2" := (bind c1 (fun _ => c2))
  (at level 61, right associativity) : monad_scope.
Open Scope monad_scope.

Definition print (line : string) : M unit :=
  fun w => (log_print line w, Returned tt).

(** A [for] loop that updates one local variable. *)
Fixpoint for_each {A S} (xs : list A) (body : A -> S -> M S) (s : S) : M S :=
  match xs with
  | [] => ret s
  | x :: rest => s' <- body x s ;; for_each rest body s'
  end.

(** ** Configuration *)

Record Config : Type := mkConfig {
  OPENWEATHERMAP_API_KEY : string;
  NEWSAPI_KEY : string;
  WORDNIK_API_KEY : option string;
  SENDER_EMAIL : option string;
  SENDER_PASSWORD : option string;
  RECEIVER_EMAIL : string;
  CITIES : list string
}.

(** [os.getenv(name, default)] *)
Definition getenv_default (getenv : string -> option string)
    (name default : string) : string :=
  match getenv name with
  | Some v => v
  | None => default
  end.

(** The module-level assignments, given the environment variables. *)
Definition load_config (getenv : string -> option string) : Config :=
  {| OPENWEATHERMAP_API_KEY :=
       getenv_default getenv "OPENWEATHERMAP_API_KEY" "your_openweather_api_key";
     NEWSAPI_KEY := getenv_default getenv "NEWSAPI_KEY" "your_news_api_key";
     WORDNIK_API_KEY := getenv "WORDNIK_API_KEY";
     SENDER_EMAIL := getenv "SENDER_EMAIL";
     SENDER_PASSWORD := getenv "SENDER_PASSWORD";
     RECEIVER_EMAIL := "RECEIVER_EMAIL";
     CITIES := ["Casablanca"; "Paris"; "New York"] |}.

(** [200 <= status_code <= 299] *)
Definition is_success (code : nat) : bool :=
  ((200 <=? code)%nat && (code <=? 299)%nat)%bool.

(** [response.json()] *)
Definition response_json (r : Response) : result value :=
  match body r with
  | Json v => Returned v
  | NotJson err => Raised (PyError JSONDecodeError err)
  end.

(** The text an f-string writes for an optional [str]. *)
Definition format_optional (s : option string) : string :=
  match s with
  | Some v => v
  | None => "None"
  end.

Section Script.

Variable env : Env.
Variable cfg : Config.

(** *** 1. Data retrieval *)

(** [client.get(url)]: one request, logged whether it succeeds or not.
    Opening and closing the [httpx.Client] around it sends nothing. *)
Definition client_get (url : string) : M Response :=
  fun w =>
    match net env (length (http_log w)) url with
    | NetworkError err => (log_request url w, Raised (PyError TransportError err))
    | Answer r => (log_request url w, Returned r)
    end.

(** [response.raise_for_status()]: httpx raises for every status that is
    not a success, redirects included. *)
Definition raise_for_status (r : Response) : result unit :=
  if is_success (status_code r) then Returned tt
  else Raised (HTTPStatusError (status_code r)
                 (status_error_message env (status_code r))).

Definition weather_url (city : string) : string :=
  "https://api.openweathermap.org/data/2.5/weather?q=" ++ city
  ++ "&appid=" ++ OPENWEATHERMAP_API_KEY cfg ++ "&units=metric".

(** The dict display of lines 35-39: [temp], then [description], then [icon]. *)
Definition weather_fields (data : value) : result value :=
  rbind (subscript data "main") (fun main_ =>
  rbind (subscript main_ "temp") (fun temp =>
  rbind (subscript data "weather") (fun weather1 =>
  rbind (subscript0 weather1) (fun first1 =>
  rbind (subscript first1 "description") (fun description =>
  rbind (subscript data "weather") (fun weather2 =>
  rbind (subscript0 weather2) (fun first2 =>
  rbind (subscript first2 "icon") (fun icon =>
  Returned (VDict [("temp", temp); ("description", description); ("icon", icon)]))))))))).

Definition weather_error (text : string) : value :=
  VDict [("error", VStr text)].

(** The body of the [for city in CITIES] loop. *)
Definition weather_step (city : string) (weather_data : dict) : M dict :=
  try_except
    (response <- client_get (weather_url city) ;;
     _ <- lift (raise_for_status response) ;;
     data <- lift (response_json response) ;;
     record <- lift (weather_fields data) ;;
     ret (dict_set city record weather_data))
    (fun e =>
       match e with
       | HTTPStatusError code _ =>
           ret (dict_set city
                  (weather_error ("Could not retrieve weather: " ++ string_of_nat code))
                  weather_data)
       | _ =>
           ret (dict_set city
                  (weather_error ("An error occurred: " ++ exn_str e))
                  weather_data)
       end).

(** One client serves the whole loop; [weather_data] starts empty. *)
Definition get_weather_data : M value :=
  weather_data <- for_each (CITIES cfg) weather_step [] ;;
  ret (VDict weather_data).

Definition news_url : string :=
  "https://newsapi.org/v2/top-headlines?category=technology&language=en&pageSize=3&apiKey="
  ++ NEWSAPI_KEY cfg.

Definition news_error (text : string) : value :=
  VList [VDict [("title", VStr "Error fetching news"); ("description", VStr text)]].

Definition get_news_headlines : M value :=
  try_except
    (response <- client_get news_url ;;
     _ <- lift (raise_for_status response) ;;
     data <- lift (response_json response) ;;
     lift (subscript data "articles"))
    (fun e =>
       match e with
       | HTTPStatusError code _ =>
           ret (news_error ("Could not retrieve news: " ++ string_of_nat code))
       | _ => ret (news_error ("An error occurred: " ++ exn_str e))
       end).

Definition word_url (key : string) : string :=
  "https://api.wordnik.com/v4/words.json/wordOfTheDay?api_key=" ++ key.

Definition word_record (word definition : value) : value :=
  VDict [("word", word); ("definition", definition)].

(** Lines 70-73: [word], then the text of the first definition. *)
Definition word_fields (data : value) : result value :=
  rbind (subscript data "word") (fun word =>
  rbind (subscript data "definitions") (fun definitions =>
  rbind (subscript0 definitions) (fun first =>
  rbind (subscript first "text") (fun text =>
  Returned (word_record word text))))).

Definition get_word_of_the_day : M value :=
  if negb (truthy (WORDNIK_API_KEY cfg)) then
    ret (word_record (VStr "N/A") (VStr "WORDNIK_API_KEY not set."))
  else
    try_except
      (response <- client_get (word_url (format_optional (WORDNIK_API_KEY cfg))) ;;
       _ <- lift (raise_for_status response) ;;
       data <- lift (response_json response) ;;
       lift (word_fields data))
      (fun e =>
         match e with
         | HTTPStatusError code _ =>
             ret (word_record (VStr "Error")
                    (VStr ("Could not retrieve word of the day: " ++ string_of_nat code)))
         | _ =>
             ret (word_record (VStr "Error")
                    (VStr ("An error occurred: " ++ exn_str e)))
         end).

(** *** 2. Formatting *)

(** The constant text of the four f-strings of [create_email_body], cut at
    their replacement fields. *)

Definition weather_error_html_0 : string :=
  "
                <div class=" ++ dq ++ "weather-city" ++ dq ++ ">
                    <h3>".

Definition weather_error_html_1 : string :=
  "</h3>
                    <p><i>".

Definition weather_error_html_2 : string :=
  "</i></p>
                </div>
            ".

Definition weather_html_0 : string :=
  "
            <div class=" ++ dq ++ "weather-city" ++ dq ++ ">
                <h3>".

Definition weather_html_1 : string :=
  "</h3>
                <img src=" ++ dq ++ "http://openweathermap.org/img/wn/".

Definition weather_html_2 : string :=
  "@2x.png" ++ dq ++ " alt=" ++ dq ++ "Weather icon" ++ dq ++ ">
                <p>".

Definition weather_html_3 : string :=
  "Â°C, ".

Definition weather_html_4 : string :=
  "</p>
            </div>
        ".

Definition news_html_0 : string :=
  "
            <div class=" ++ dq ++ "news-item" ++ dq ++ ">
                <h4><a href=" ++ dq.

Definition news_html_1 : string :=
  dq ++ ">".

Definition news_html_2 : string :=
  "</a></h4>
                <p>".

Definition news_html_3 : string :=
  "</p>
            </div>
        ".

Definition page_0 : string :=
  "
    <html>
    <head>
        <style>
            body { font-family: Arial, sans-serif; margin: 0; padding: 20px; background-color: #f4f4f4; }
            .container { background-color: #ffffff; padding: 20px; border-radius: 8px; max-width: 600px; margin: auto; }
            .header { color: #333; text-align: center; border-bottom: 2px solid #eee; padding-bottom: 10px; }
            .section { margin-top: 20px; }
            .section h2 { color: #555; }
            .weather-container { display: flex; justify-content: space-around; text-align: center; }
            .weather-city img { width: 50px; height: 50px; }
            .news-item { border-bottom: 1px solid #eee; padding-bottom: 10px; margin-bottom: 10px; }
            .news-item:last-child { border-bottom: none; }
            .footer { text-align: center; margin-top: 20px; font-size: 0.8em; color: #888; }
        </style>
    </head>
    <body>
        <div class=" ++ dq ++ "container" ++ dq ++ ">
            <div class=" ++ dq ++ "header" ++ dq ++ ">
                <h1>Daily Briefing</h1>
                <p>".

Definition page_1 : string :=
  "</p>
            </div>

            <div class=" ++ dq ++ "section" ++ dq ++ ">
                <h2>Weather Forecast</h2>
                <div class=" ++ dq ++ "weather-container" ++ dq ++ ">
                    ".

Definition page_2 : string :=
  "
                </div>
            </div>

            <div class=" ++ dq ++ "section" ++ dq ++ ">
                <h2>Top Tech Headlines</h2>
                ".

Definition page_3 : string :=
  "
            </div>

            <div class=" ++ dq ++ "section" ++ dq ++ ">
                <h2>Word of the Day</h2>
                <h3>".

Definition page_4 : string :=
  "</h3>
                <p>".

Definition page_5 : string :=
  "</p>
            </div>

            <div class=" ++ dq ++ "footer" ++ dq ++ ">
                <p>This email was generated automatically.</p>
            </div>
        </div>
    </body>
    </html>
    ".

(** What a replacement field [{v}] writes. *)
Definition format_value (v : value) : string :=
  match v with
  | VStr s => s
  | _ => py_repr env v
  end.

(** [v.title()] *)
Definition title (v : value) : result string :=
  match v with
  | VStr s => Returned (str_title env s)
  | _ => no_attribute v "title"
  end.

Definition get_weather_html (city_name : string) (data : value) : result string :=
  rbind (contains_key "error" data) (fun has_error =>
  if has_error then
    rbind (subscript data "error") (fun error =>
    Returned (weather_error_html_0 ++ city_name ++ weather_error_html_1
              ++ format_value error ++ weather_error_html_2))
  else
    rbind (subscript data "icon") (fun icon =>
    rbind (subscript data "temp") (fun temp =>
    rbind (subscript data "description") (fun description =>
    rbind (title description) (fun titled =>
    Returned (weather_html_0 ++ city_name ++ weather_html_1 ++ format_value icon
              ++ weather_html_2 ++ format_value temp ++ weather_html_3 ++ titled
              ++ weather_html_4)))))).

Definition get_news_html (article : value) : result string :=
  rbind (get_default article "url" (VStr "#")) (fun url =>
  rbind (get_default article "title" (VStr "N/A")) (fun title_ =>
  rbind (get_default article "description" (VStr "No description available."))
    (fun description =>
  Returned (news_html_0 ++ format_value url ++ news_html_1 ++ format_value title_
            ++ news_html_2 ++ format_value description ++ news_html_3)))).

(** [''.join(parts)] *)
Definition join (parts : list string) : string := String.concat "" parts.

Definition create_email_body (weather_data news_articles word_of_the_day : value)
  : result string :=
  let today := strftime_now env "%A, %B %d, %Y" in
  rbind (items weather_data) (fun pairs =>
  rbind (comprehension (fun '(city, data) => get_weather_html city data) pairs)
    (fun weather_parts =>
  rbind (iterate news_articles) (fun articles =>
  rbind (comprehension get_news_html articles) (fun news_parts =>
  rbind (get_default word_of_the_day "word" (VStr "N/A")) (fun word =>
  rbind (title word) (fun word_title =>
  rbind (get_default word_of_the_day "definition" (VStr "N/A")) (fun definition =>
  Returned (page_0 ++ today ++ page_1 ++ join weather_parts ++ page_2
            ++ join news_parts ++ page_3 ++ word_title ++ page_4
            ++ format_value definition ++ page_5)))))))).

(** *** 3. Email delivery *)

(** One step of the SMTP session: logged, then it succeeds or raises as the
    server decides. *)
Definition smtp_do (ev : smtp_event) : M unit :=
  fun w =>
    match smtp env ev with
    | None => (log_smtp ev w, Returned tt)
    | Some e => (log_smtp ev w, Raised e)
    end.

(** [with smtplib.SMTP(host, port) as server: body]: once the connection is
    made, the session is ended with QUIT on the way out, whether [body]
    returns or raises; an exception raised by that step replaces the outcome
    of [body]. *)
Definition with_smtp {A} (host : string) (port : nat) (body : M A) : M A :=
  _ <- smtp_do (Connect host port) ;;
  fun w =>
    match body w with
    | (w', r) =>
        match smtp env Quit with
        | None => (log_smtp Quit w', r)
        | Some e => (log_smtp Quit w', Raised e)
        end
    end.

(** Building the [EmailMessage] sends nothing; its header values are taken
    as [EmailMessage] accepts them. *)
Definition send_email (html_content : string) : M unit :=
  if negb (truthy (SENDER_EMAIL cfg) && truthy (SENDER_PASSWORD cfg)
           && truthy (Some (RECEIVER_EMAIL cfg)))
  then print "Email credentials not set. Skipping email delivery."
  else
    let msg :=
      {| Subject := "Your Daily Briefing for " ++ strftime_now env "%B %d, %Y";
         From := format_optional (SENDER_EMAIL cfg);
         To := RECEIVER_EMAIL cfg;
         plain_part := "Please enable HTML to view this email.";
         html_part := html_content |} in
    try_except
      (with_smtp "smtp.gmail.com" 587
         (_ <- smtp_do StartTLS ;;
          _ <- smtp_do (Login (format_optional (SENDER_EMAIL cfg))
                          (format_optional (SENDER_PASSWORD cfg))) ;;
          _ <- smtp_do (SendMessage msg) ;;
          print "Email sent successfully!"))
      (fun e =>
         match e with
         | PyError SMTPAuthenticationError _ =>
             print "Error: SMTP authentication failed. Check your email/password or app password."
         | _ => print ("An error occurred while sending the email: " ++ exn_str e)
         end).

(** *** Main execution *)

Definition main : M unit :=
  _ <- print "Fetching data for the daily briefing..." ;;
  weather <- get_weather_data ;;
  news <- get_news_headlines ;;
  word_day <- get_word_of_the_day ;;
  _ <- print "Creating email body..." ;;
  email_body <- lift (create_email_body weather news word_day) ;;
  _ <- print "Sending email..." ;;
  _ <- send_email email_body ;;
  print "Script finished.".

End Script.

(** * Specification vocabulary *)

(** The notions the properties below are stated with. *)

(** Number of entries of [d] under the key [k]. *)
Definition count_key (k : string) (d : dict) : nat :=
  length (filter (fun entry => String.eqb k (fst entry)) d).

(** The two kinds of failure the handlers tell apart. *)
Inductive failure : Type :=
| BadStatus (code : nat)       (* a status outside 200..299 *)
| OtherFailure (text : string). (* any other exception, with its [str] *)

(** The detail a failure message carries. *)
Definition failure_detail (f : failure) : string :=
  match f with
  | BadStatus code => string_of_nat code
  | OtherFailure text => text
  end.

(** The message of a failed fetch of [what]. *)
Definition failure_text (what : string) (f : failure) : string :=
  match f with
  | BadStatus _ => "Could not retrieve " ++ what ++ ": " ++ failure_detail f
  | OtherFailure _ => "An error occurred: " ++ failure_detail f
  end.

(** [fetch_fails parse o f]: a request answered by [o], whose body is read
    with [parse], fails with [f]: the request itself raises, the status is
    not a success, the body is not JSON, or [parse] raises. *)
Inductive fetch_fails {A} (parse : value -> result A) : http_outcome -> failure -> Prop :=
| fails_network err :
    fetch_fails parse (NetworkError err) (OtherFailure err)
| fails_status r :
    is_success (status_code r) = false ->
    fetch_fails parse (Answer r) (BadStatus (status_code r))
| fails_not_json r err :
    is_success (status_code r) = true ->
    body r = NotJson err ->
    fetch_fails parse (Answer r) (OtherFailure err)
| fails_parse r data e :
    is_success (status_code r) = true ->
    body r = Json data ->
    parse data = Raised e ->
    fetch_fails parse (Answer r) (OtherFailure (exn_str e)).

(** [fetch_succeeds parse o a]: the status is a success, the body is JSON and
    [parse] returns [a]. *)
Inductive fetch_succeeds {A} (parse : value -> result A) : http_outcome -> A -> Prop :=
| succeeds r data a :
    is_success (status_code r) = true ->
    body r = Json data ->
    parse data = Returned a ->
    fetch_succeeds parse (Answer r) a.

(** The exceptions of subscripting are plain Python errors, never an
    [HTTPStatusError]. *)
Definition plain_error (e : exn) : Prop :=
  match e with
  | PyError _ _ => True
  | HTTPStatusError _ _ => False
  end.

(** What a client returns, read off the outcome [o] of its request: the
    value [parse] finds in the body, or the sentinel [on_failure] builds. *)
Definition fetched (parse : value -> result value) (on_failure : failure -> value)
    (o : http_outcome) : value :=
  match o with
  | NetworkError err => on_failure (OtherFailure err)
  | Answer r =>
      if is_success (status_code r) then
        match body r with
        | NotJson err => on_failure (OtherFailure err)
        | Json data =>
            match parse data with
            | Returned a => a
            | Raised e => on_failure (OtherFailure (exn_str e))
            end
        end
      else on_failure (BadStatus (status_code r))
  end.

(** The record the loop stores for a city, read off the outcome of the
    city's request. *)
Definition weather_entry (o : http_outcome) : value :=
  fetched weather_fields (fun f => weather_error (failure_text "weather" f)) o.

(** The loop as a function of the outcomes: the request of the [j]-th city
    is the [(n + j)]-th request overall. *)
Fixpoint weather_loop (env : Env) (cfg : Config) (n : nat) (cities : list string) (weather_data : dict) : dict :=
  match cities with
  | [] => weather_data
  | city :: rest =>
      weather_loop env cfg (S n) rest
        (dict_set city (weather_entry (net env n (weather_url cfg city))) weather_data)
  end.

Definition log_requests (urls : list string) (w : World) : World :=
  mkWorld (http_log w ++ urls) (smtp_log w) (stdout w).

(** [response.json()["articles"]] *)
Definition articles_of (data : value) : result value := subscript data "articles".

Definition word_failure (f : failure) : value :=
  word_record (VStr "Error") (VStr (failure_text "word of the day" f)).

(** The two shapes of a city's record. *)
Definition success_shaped (record : value) : Prop :=
  exists temp description icon,
    record = VDict [("temp", temp); ("description", description); ("icon", icon)].

Definition failure_shaped (record : value) : Prop :=
  exists message, record = VDict [("error", VStr message)].

Definition well_shaped (record : value) : Prop :=
  success_shaped record \/ failure_shaped record.

(** [fetched_last cities i city]: the [i]-th city of the list is [city], and
    [city] does not come again later in the list (where its entry would be
    overwritten). *)
Definition fetched_last (cities : list string) (i : nat) (city : string) : bool :=
  match nth_error cities i with
  | Some c => String.eqb city c && negb (existsb (String.eqb city) (skipn (S i) cities))
  | None => false
  end.

(** A list of article records. *)
Definition is_article_list (v : value) : bool :=
  match v with
  | VList entries =>
      forallb (fun a => match a with VDict _ => true | _ => false end) entries
  | _ => false
  end.

(** An optional setting that is unset or empty. *)
Definition unset (s : option string) : Prop := s = None \/ s = Some "".

Definition or_default (found : option value) (default : value) : value :=
  match found with
  | Some v => v
  | None => default
  end.

(** The block of one city: the error block exactly when the record has an
    [error] entry, the forecast block otherwise. *)
Inductive weather_block (env : Env) (city : string) : value -> string -> Prop :=
| block_error fields error :
    dict_get "error" fields = Some error ->
    weather_block env city (VDict fields)
      (weather_error_html_0 ++ city ++ weather_error_html_1
       ++ format_value env error ++ weather_error_html_2)
| block_forecast fields icon temp description :
    dict_get "error" fields = None ->
    dict_get "icon" fields = Some icon ->
    dict_get "temp" fields = Some temp ->
    dict_get "description" fields = Some (VStr description) ->
    weather_block env city (VDict fields)
      (weather_html_0 ++ city ++ weather_html_1 ++ format_value env icon
       ++ weather_html_2 ++ format_value env temp ++ weather_html_3
       ++ str_title env description ++ weather_html_4).

(** The block of one article, with "#", "N/A" and "No description available."
    in place of a missing [url], [title] and [description]. *)
Definition news_block (env : Env) (fields : dict) : string :=
  news_html_0 ++ format_value env (or_default (dict_get "url" fields) (VStr "#"))
  ++ news_html_1 ++ format_value env (or_default (dict_get "title" fields) (VStr "N/A"))
  ++ news_html_2
  ++ format_value env (or_default (dict_get "description" fields)
                         (VStr "No description available."))
  ++ news_html_3.

(** A weather record the page can show: it has an [error] entry, or it has
    [icon] and [temp] and a [description] that is a [str]. *)
Definition renderable (record : value) : Prop :=
  exists fields,
    record = VDict fields
    /\ (dict_has "error" fields = true
        \/ (dict_has "icon" fields = true /\ dict_has "temp" fields = true
            /\ exists s, dict_get "description" fields = Some (VStr s))).

Definition is_record (v : value) : Prop := exists fields, v = VDict fields.

Definition fields_of (v : value) : dict :=
  match v with
  | VDict fields => fields
  | _ => []
  end.

(** ** Scenarios *)

(** No environment variable is set: every key has its default. *)
Definition default_config : Config := load_config (fun _ => None).

(** An environment with the given network and a server that accepts every
    SMTP step. *)
Definition env_with (network : nat -> string -> http_outcome) : Env :=
  {| net := network;
     smtp := fun _ => None;
     strftime_now := fun _ => "Wednesday, November 04, 2026";
     status_error_message := fun code => "status " ++ string_of_nat code;
     py_repr := fun v => "<" ++ type_name v ++ ">";
     str_title := fun s => s |}.

Definition paris_body : value :=
  VDict [("main", VDict [("temp", VFloat 21.5%float)]);
         ("weather", VList [VDict [("description", VStr "clear sky");
                                   ("icon", VStr "01d")]])].

(** A stub weather provider: Casablanca is refused with status 404, Paris is
    answered, every other request finds no network. *)
Definition stub_weather (n : nat) (url : string) : http_outcome :=
  if String.eqb url (weather_url default_config "Casablanca") then
    Answer (mkResponse 404 (Json (VDict [("message", VStr "city not found")])))
  else if String.eqb url (weather_url default_config "Paris") then
    Answer (mkResponse 200 (Json paris_body))
  else NetworkError "no route to host".

(** A stub weather provider whose bodies have [null] for the description. *)
Definition stub_weather_null (n : nat) (url : string) : http_outcome :=
  Answer (mkResponse 200
            (Json (VDict [("main", VDict [("temp", VInt 20)]);
                          ("weather", VList [VDict [("description", VNone);
                                                    ("icon", VStr "01d")]])]))).

(** A stub news provider that refuses the credential. *)
Definition stub_news_401 (n : nat) (url : string) : http_outcome :=
  Answer (mkResponse 401 (Json (VDict [("status", VStr "error");
                                       ("code", VStr "apiKeyInvalid")]))).

Definition article (title_ : string) : value :=
  VDict [("title", VStr title_); ("description", VNone)].

(** A stub news provider that ignores [pageSize=3] and sends four articles,
    none of them with a [url]. *)
Definition stub_news_four (n : nat) (url : string) : http_outcome :=
  Answer (mkResponse 200
            (Json (VDict [("status", VStr "ok");
                          ("articles", VList [article "one"; article "two";
                                              article "three"; article "four"])]))).

(** A stub news provider whose body has [null] for [articles]. *)
Definition stub_news_null (n : nat) (url : string) : http_outcome :=
  if String.eqb url (news_url default_config) then
    Answer (mkResponse 200 (Json (VDict [("status", VStr "ok"); ("articles", VNone)])))
  else NetworkError "no route to host".

(** A configuration with a Wordnik credential. *)
Definition wordnik_config : Config :=
  load_config (fun name => if String.eqb name "WORDNIK_API_KEY" then Some "k3y" else None).

(** A stub provider that answers every request with status 500. *)
Definition stub_500 (n : nat) (url : string) : http_outcome :=
  Answer (mkResponse 500 (NotJson "Expecting value: line 1 column 1 (char 0)")).

(** A briefing the page can show: an error city, a forecast city, an article
    with nothing but a title, and a word record without a word. *)
Definition sample_weather : dict :=
  [("Casablanca", VDict [("error", VStr "Could not retrieve weather: 404")]);
   ("Paris", VDict [("temp", VFloat 21.5%float); ("description", VStr "clear sky");
                    ("icon", VStr "01d")])].

Definition sample_articles : list value := [VDict [("title", VStr "Rocq 9.3 is out")]].

Definition sample_word : dict := [("definition", VStr "a short account")].

(** A forecast record with every key, whose description is [None]. *)
Definition null_description : dict :=
  [("temp", VInt 20); ("description", VNone); ("icon", VStr "01d")].

(** ** Delivery and the whole run *)

(** [all([SENDER_EMAIL, SENDER_PASSWORD, RECEIVER_EMAIL])] *)
Definition credentials_set (cfg : Config) : bool :=
  truthy (SENDER_EMAIL cfg) && truthy (SENDER_PASSWORD cfg)
  && truthy (Some (RECEIVER_EMAIL cfg)).

(** The message of lines 173-178. *)
Definition email_message (env : Env) (cfg : Config) (html_content : string)
  : EmailMessage :=
  {| Subject := "Your Daily Briefing for " ++ strftime_now env "%B %d, %Y";
     From := format_optional (SENDER_EMAIL cfg);
     To := RECEIVER_EMAIL cfg;
     plain_part := "Please enable HTML to view this email.";
     html_part := html_content |}.

(** The [with] block of [send_email], without its [try]. *)
Definition smtp_session (env : Env) (cfg : Config) (html_content : string) : M unit :=
  with_smtp env "smtp.gmail.com" 587
    (_ <- smtp_do env StartTLS ;;
     _ <- smtp_do env (Login (format_optional (SENDER_EMAIL cfg))
                         (format_optional (SENDER_PASSWORD cfg))) ;;
     _ <- smtp_do env (SendMessage (email_message env cfg html_content)) ;;
     print "Email sent successfully!").

(** The line printed for an exception of the session. *)
Definition delivery_report (e : exn) : string :=
  match e with
  | PyError SMTPAuthenticationError _ =>
      "Error: SMTP authentication failed. Check your email/password or app password."
  | _ => "An error occurred while sending the email: " ++ exn_str e
  end.


(** The requests of one run, in order: one per city of the list, the news,
    and the word of the day when its credential is set. *)
Definition main_requests (cfg : Config) : list string :=
  (map (weather_url cfg) (CITIES cfg)
   ++ [news_url cfg]
   ++ (if truthy (WORDNIK_API_KEY cfg)
       then [word_url (format_optional (WORDNIK_API_KEY cfg))]
       else []))%list.

(** The three values [main] hands to [create_email_body], read off the
    outcomes of the requests, the first of which is the [n]-th overall. *)
Definition briefing (env : Env) (cfg : Config) (n : nat) : value * value * value :=
  (VDict (weather_loop env cfg n (CITIES cfg) []),
   fetched articles_of (fun f => news_error (failure_text "news" f))
     (net env (n + length (CITIES cfg)) (news_url cfg)),
   if truthy (WORDNIK_API_KEY cfg) then
     fetched word_fields word_failure
       (net env (n + length (CITIES cfg) + 1)
          (word_url (format_optional (WORDNIK_API_KEY cfg))))
   else word_record (VStr "N/A") (VStr "WORDNIK_API_KEY not set.")).

(** The distinct elements of a list, each at the place of its first
    occurrence, after the ones already [seen]. *)
Fixpoint first_occurrences_from (seen cities : list string) : list string :=
  match cities with
  | [] => seen
  | city :: rest =>
      first_occurrences_from
        (if existsb (String.eqb city) seen then seen else seen ++ [city])%list rest
  end.

Definition first_occurrences (cities : list string) : list string :=
  first_occurrences_from [] cities.

(** ** More scenarios *)



(** No network at all. *)
Definition stub_outage (n : nat) (url : string) : http_outcome :=
  NetworkError "no route to host".



Definition word_body : value :=
  VDict [("word", VStr "brief");
         ("definitions", VList [VDict [("text", VStr "a short account")]])].

(** A stub Wordnik that answers with a word and one definition. *)
Definition stub_word (n : nat) (url : string) : http_outcome :=
  Answer (mkResponse 200 (Json word_body)).

(** A stub Wordnik whose word has no definition. *)
Definition stub_word_undefined (n : nat) (url : string) : http_outcome :=
  Answer (mkResponse 200 (Json (VDict [("word", VStr "brief");
                                       ("definitions", VList [])]))).

(** A stub provider that answers 200 with a body that has no [main]. *)
Definition stub_no_main (n : nat) (url : string) : http_outcome :=
  Answer (mkResponse 200 (Json (VDict [("cod", VInt 200)]))).


(** * Properties *)

(** ** Dictionaries *)

Lemma dict_get_set_same (k : string) (v : value) (d : dict) :
  dict_get k (dict_set k v d) = Some v.
Proof.
  induction d as [|[k' v'] rest IH]; simpl.
  - now rewrite String.eqb_refl.
  - destruct (String.eqb k k') eqn:E; simpl; rewrite E; auto.
Qed.

Lemma dict_get_set_other (k k' : string) (v : value) (d : dict) :
  k <> k' -> dict_get k (dict_set k' v d) = dict_get k d.
Proof.
  intros Hne. induction d as [|[k0 v0] rest IH]; simpl.
  - apply String.eqb_neq in Hne. now rewrite Hne.
  - destruct (String.eqb k' k0) eqn:E; simpl.
    + apply String.eqb_eq in E. subst k0.
      apply String.eqb_neq in Hne. now rewrite Hne.
    + now rewrite IH.
Qed.

Lemma dict_has_keys (k : string) (d : dict) :
  dict_has k d = true <-> In k (dict_keys d).
Proof.
  unfold dict_has. induction d as [|[k' v'] rest IH]; simpl.
  - split; [discriminate | tauto].
  - destruct (String.eqb k k') eqn:E.
    + apply String.eqb_eq in E. subst. tauto.
    + apply String.eqb_neq in E. rewrite IH. split; [tauto|].
      intros [H|H]; [congruence | exact H].
Qed.

Lemma dict_keys_set (k : string) (v : value) (d : dict) :
  dict_keys (dict_set k v d) =
  if dict_has k d then dict_keys d else (dict_keys d ++ [k])%list.
Proof.
  unfold dict_has. induction d as [|[k' v'] rest IH]; simpl; [reflexivity|].
  destruct (String.eqb k k') eqn:E; simpl; [reflexivity|].
  rewrite IH. now destruct (dict_get k rest).
Qed.

Lemma dict_keys_set_In (k k' : string) (v : value) (d : dict) :
  In k (dict_keys (dict_set k' v d)) <-> k = k' \/ In k (dict_keys d).
Proof.
  rewrite dict_keys_set. destruct (dict_has k' d) eqn:E.
  - apply dict_has_keys in E. split; [tauto|]. intros [->|H]; assumption.
  - rewrite in_app_iff. simpl. split; intros H; intuition congruence.
Qed.

Lemma dict_keys_set_NoDup (k : string) (v : value) (d : dict) :
  NoDup (dict_keys d) -> NoDup (dict_keys (dict_set k v d)).
Proof.
  intros Hnd. rewrite dict_keys_set. destruct (dict_has k d) eqn:E; [exact Hnd|].
  assert (Hnot : ~ In k (dict_keys d)).
  { intros Hin. apply dict_has_keys in Hin. congruence. }
  clear E. induction (dict_keys d) as [|x xs IH]; simpl.
  - constructor; [tauto | constructor].
  - inversion Hnd as [|? ? Hx Hxs]; subst. constructor.
    + rewrite in_app_iff. simpl. intros [H|[H|[]]]; [tauto|].
      subst. apply Hnot. now left.
    + apply IH; [assumption|]. intros H. apply Hnot. now right.
Qed.

Lemma dict_get_In (k : string) (v : value) (d : dict) :
  dict_get k d = Some v -> In (k, v) d.
Proof.
  induction d as [|[k' v'] rest IH]; simpl; [discriminate|].
  destruct (String.eqb k k') eqn:E.
  - apply String.eqb_eq in E. intros [= ->]. subst. now left.
  - intros H. right. now apply IH.
Qed.

Lemma count_key_absent (k : string) (d : dict) :
  ~ In k (dict_keys d) -> count_key k d = 0.
Proof.
  unfold count_key. induction d as [|[k' v'] rest IH]; simpl; [reflexivity|].
  intros Hnot. destruct (String.eqb k k') eqn:E.
  - apply String.eqb_eq in E. subst. tauto.
  - apply IH. tauto.
Qed.

Lemma count_key_NoDup (k : string) (d : dict) :
  NoDup (dict_keys d) -> In k (dict_keys d) -> count_key k d = 1.
Proof.
  unfold count_key. induction d as [|[k' v'] rest IH]; simpl; [tauto|].
  intros Hnd Hin. inversion Hnd as [|? ? Hk Hrest]; subst.
  destruct (String.eqb k k') eqn:E; simpl.
  - apply String.eqb_eq in E. subst k'.
    f_equal. now apply (count_key_absent k rest).
  - apply String.eqb_neq in E. apply IH; [assumption|].
    destruct Hin as [H|H]; [congruence | exact H].
Qed.

(** ** Failures of a fetch *)

Lemma fetch_outcome {A} (parse : value -> result A) (o : http_outcome) :
  (exists f, fetch_fails parse o f) \/ (exists a, fetch_succeeds parse o a).
Proof.
  destruct o as [err|r].
  - left. exists (OtherFailure err). constructor.
  - destruct (is_success (status_code r)) eqn:Hs.
    + destruct (body r) as [err|data] eqn:Hb.
      * left. exists (OtherFailure err). apply fails_not_json; assumption.
      * destruct (parse data) as [a|e] eqn:Hp.
        -- right. exists a. apply succeeds with data; assumption.
        -- left. exists (OtherFailure (exn_str e)).
           apply fails_parse with data; assumption.
    + left. exists (BadStatus (status_code r)). apply fails_status; assumption.
Qed.

Lemma string_app_assoc (a b c : string) : (a ++ b) ++ c = a ++ b ++ c.
Proof. induction a as [|ch a IH]; simpl; [reflexivity | now rewrite IH]. Qed.

(** Every failure message ends with the detail of the failure. *)
Lemma failure_text_embeds (what : string) (f : failure) :
  exists prefix, failure_text what f = prefix ++ failure_detail f.
Proof.
  destruct f as [code|text]; simpl.
  - exists ("Could not retrieve " ++ what ++ ": ").
    now rewrite !string_app_assoc.
  - now exists "An error occurred: ".
Qed.

Lemma subscript_raises (v : value) (k : string) (e : exn) :
  subscript v k = Raised e -> plain_error e.
Proof.
  destruct v; simpl; try (intros [= <-]; exact I).
  destruct (dict_get k fields); [discriminate | intros [= <-]; exact I].
Qed.

Lemma subscript0_raises (v : value) (e : exn) :
  subscript0 v = Raised e -> plain_error e.
Proof.
  destruct v; simpl; try (intros [= <-]; exact I).
  - destruct (code_points s); [intros [= <-]; exact I | discriminate].
  - destruct items0; [intros [= <-]; exact I | discriminate].
Qed.

Lemma rbind_raises {A B} (r : result A) (k : A -> result B) (e : exn) :
  rbind r k = Raised e ->
  r = Raised e \/ exists a, r = Returned a /\ k a = Raised e.
Proof.
  destruct r as [a|e']; simpl; intros H.
  - right. now exists a.
  - left. now injection H as ->.
Qed.

Lemma rbind_returns {A B} (r : result A) (k : A -> result B) (b : B) :
  rbind r k = Returned b -> exists a, r = Returned a /\ k a = Returned b.
Proof.
  destruct r as [a|e]; simpl; intros H; [now exists a | discriminate].
Qed.

Ltac plain_chain :=
  repeat match goal with
    | H : rbind _ _ = Raised _ |- _ =>
        apply rbind_raises in H; destruct H as [H | [? [_ H]]]
    | H : subscript _ _ = Raised _ |- _ => exact (subscript_raises _ _ _ H)
    | H : subscript0 _ = Raised _ |- _ => exact (subscript0_raises _ _ H)
    | H : Returned _ = Raised _ |- _ => discriminate H
    end.

Lemma fetched_fails (parse : value -> result value) (on_failure : failure -> value)
    (o : http_outcome) (f : failure) :
  fetch_fails parse o f -> fetched parse on_failure o = on_failure f.
Proof.
  intros H. destruct H as [err|r Hs|r err Hs Hb|r data e Hs Hb Hp]; simpl.
  - reflexivity.
  - now rewrite Hs.
  - now rewrite Hs, Hb.
  - now rewrite Hs, Hb, Hp.
Qed.

Lemma fetched_succeeds (parse : value -> result value) (on_failure : failure -> value)
    (o : http_outcome) (a : value) :
  fetch_succeeds parse o a -> fetched parse on_failure o = a.
Proof.
  intros H. destruct H as [r data a Hs Hb Hp]; simpl. now rewrite Hs, Hb, Hp.
Qed.

Section Retrieval.

Variable env : Env.
Variable cfg : Config.

Lemma weather_fields_raises (data : value) (e : exn) :
  weather_fields data = Raised e -> plain_error e.
Proof. unfold weather_fields. intros H. plain_chain. Qed.

Lemma word_fields_raises (data : value) (e : exn) :
  word_fields data = Raised e -> plain_error e.
Proof. unfold word_fields. intros H. plain_chain. Qed.

(** One turn of the loop: exactly one request, and the city's entry set to
    the record for its outcome; no exception leaves the turn. *)
Lemma weather_step_run (city : string) (weather_data : dict) (w : World) :
  weather_step env cfg city weather_data w =
  (log_request (weather_url cfg city) w,
   Returned (dict_set city
               (weather_entry (net env (length (http_log w)) (weather_url cfg city)))
               weather_data)).
Proof.
  unfold weather_step, try_except, bind, client_get, weather_entry, fetched.
  destruct (net env (length (http_log w)) (weather_url cfg city)) as [err|r];
    [reflexivity|].
  unfold lift, raise_for_status, response_json.
  destruct (is_success (status_code r)); [|reflexivity].
  destruct (body r) as [err|data]; [reflexivity|].
  destruct (weather_fields data) as [record|e] eqn:Hf; [reflexivity|].
  apply weather_fields_raises in Hf. destruct e; [destruct Hf | reflexivity].
Qed.

Lemma for_each_weather (cities : list string) (weather_data : dict) (w : World) :
  for_each cities (weather_step env cfg) weather_data w =
  (log_requests (map (weather_url cfg) cities) w,
   Returned (weather_loop env cfg (length (http_log w)) cities weather_data)).
Proof.
  revert weather_data w. induction cities as [|city rest IH]; intros wd w; simpl.
  - unfold ret, log_requests. rewrite app_nil_r. now destruct w.
  - unfold bind. rewrite weather_step_run, IH.
    unfold log_requests, log_request; simpl.
    rewrite length_app, <- app_assoc; simpl.
    now rewrite Nat.add_1_r.
Qed.

Lemma get_weather_data_run (w : World) :
  get_weather_data env cfg w =
  (log_requests (map (weather_url cfg) (CITIES cfg)) w,
   Returned (VDict (weather_loop env cfg (length (http_log w)) (CITIES cfg) []))).
Proof.
  unfold get_weather_data, bind. now rewrite for_each_weather.
Qed.

Lemma get_news_headlines_run (w : World) :
  get_news_headlines env cfg w =
  (log_request (news_url cfg) w,
   Returned (fetched articles_of (fun f => news_error (failure_text "news" f))
               (net env (length (http_log w)) (news_url cfg)))).
Proof.
  unfold get_news_headlines, try_except, bind, client_get, fetched, articles_of.
  destruct (net env (length (http_log w)) (news_url cfg)) as [err|r]; [reflexivity|].
  unfold lift, raise_for_status, response_json.
  destruct (is_success (status_code r)); [|reflexivity].
  destruct (body r) as [err|data]; [reflexivity|].
  destruct (subscript data "articles") as [a|e] eqn:Hf; [reflexivity|].
  apply subscript_raises in Hf. destruct e; [destruct Hf | reflexivity].
Qed.

Lemma get_word_of_the_day_unset (w : World) :
  truthy (WORDNIK_API_KEY cfg) = false ->
  get_word_of_the_day env cfg w =
  (w, Returned (word_record (VStr "N/A") (VStr "WORDNIK_API_KEY not set."))).
Proof. intros H. unfold get_word_of_the_day. now rewrite H. Qed.

Lemma get_word_of_the_day_run (w : World) :
  truthy (WORDNIK_API_KEY cfg) = true ->
  get_word_of_the_day env cfg w =
  (log_request (word_url (format_optional (WORDNIK_API_KEY cfg))) w,
   Returned (fetched word_fields word_failure
               (net env (length (http_log w))
                  (word_url (format_optional (WORDNIK_API_KEY cfg)))))).
Proof.
  intros H. unfold get_word_of_the_day. rewrite H. simpl.
  unfold try_except, bind, client_get, fetched, word_failure.
  destruct (net env (length (http_log w))
              (word_url (format_optional (WORDNIK_API_KEY cfg)))) as [err|r];
    [reflexivity|].
  unfold lift, raise_for_status, response_json.
  destruct (is_success (status_code r)); [|reflexivity].
  destruct (body r) as [err|data]; [reflexivity|].
  destruct (word_fields data) as [a|e] eqn:Hf; [reflexivity|].
  apply word_fields_raises in Hf. destruct e; [destruct Hf | reflexivity].
Qed.

Lemma word_fields_shaped (data record : value) :
  word_fields data = Returned record ->
  exists word definition, record = word_record word definition.
Proof.
  unfold word_fields. intros H.
  repeat (apply rbind_returns in H; destruct H as [? [_ H]]).
  injection H as <-. eauto.
Qed.

End Retrieval.

(** ** The weather mapping *)

Lemma dict_set_In (k k' : string) (v v' : value) (d : dict) :
  In (k, v) (dict_set k' v' d) -> v = v' \/ In (k, v) d.
Proof.
  induction d as [|[k0 v0] rest IH]; simpl.
  - intros [[= _ <-]|[]]. now left.
  - destruct (String.eqb k' k0); simpl.
    + intros [[= _ <-]|H]; [now left | right; now right].
    + intros [H|H]; [right; now left|].
      destruct (IH H) as [->|Hin]; [now left | right; now right].
Qed.

Lemma existsb_eqb_In (city : string) (cities : list string) :
  existsb (String.eqb city) cities = false <-> ~ In city cities.
Proof.
  induction cities as [|c rest IH]; simpl; [tauto|].
  rewrite orb_false_iff, IH, String.eqb_neq. intuition congruence.
Qed.

Section WeatherMapping.

Variable env : Env.
Variable cfg : Config.

Lemma weather_fields_shaped (data record : value) :
  weather_fields data = Returned record -> success_shaped record.
Proof.
  unfold weather_fields. intros H.
  repeat (apply rbind_returns in H; destruct H as [? [_ H]]).
  injection H as <-. unfold success_shaped. eauto.
Qed.

Lemma weather_entry_shaped (o : http_outcome) : well_shaped (weather_entry o).
Proof.
  unfold weather_entry, fetched, well_shaped, weather_error.
  destruct o as [err|r]; [right; eexists; reflexivity|].
  destruct (is_success (status_code r)); [|right; eexists; reflexivity].
  destruct (body r) as [err|data]; [right; eexists; reflexivity|].
  destruct (weather_fields data) as [record|e] eqn:Hf;
    [left; eapply weather_fields_shaped; eassumption | right; eexists; reflexivity].
Qed.

Lemma weather_loop_keys (cities : list string) (n : nat) (d : dict) (city : string) :
  In city (dict_keys (weather_loop env cfg n cities d)) <->
  In city (dict_keys d) \/ In city cities.
Proof.
  revert n d. induction cities as [|c rest IH]; intros n d; simpl; [tauto|].
  rewrite IH, dict_keys_set_In. intuition congruence.
Qed.

Lemma weather_loop_NoDup (cities : list string) (n : nat) (d : dict) :
  NoDup (dict_keys d) -> NoDup (dict_keys (weather_loop env cfg n cities d)).
Proof.
  revert n d. induction cities as [|c rest IH]; intros n d Hd; simpl; [exact Hd|].
  apply IH. now apply dict_keys_set_NoDup.
Qed.

Lemma weather_loop_shaped (cities : list string) (n : nat) (d : dict) :
  (forall city record, In (city, record) d -> well_shaped record) ->
  forall city record,
    In (city, record) (weather_loop env cfg n cities d) -> well_shaped record.
Proof.
  revert n d. induction cities as [|c rest IH]; intros n d Hd; simpl; [exact Hd|].
  apply IH. intros city record Hin.
  apply dict_set_In in Hin. destruct Hin as [->|Hin].
  - apply weather_entry_shaped.
  - eapply Hd; eassumption.
Qed.

(** Cities fetched later leave the entry of another city alone. *)
Lemma weather_loop_skip (cities : list string) (n : nat) (d : dict) (city : string) :
  ~ In city cities ->
  dict_get city (weather_loop env cfg n cities d) = dict_get city d.
Proof.
  revert n d. induction cities as [|c rest IH]; intros n d Hnot; simpl; [reflexivity|].
  simpl in Hnot. rewrite IH by tauto.
  apply dict_get_set_other. intros ->. tauto.
Qed.

(** The entry of a city is the record for the outcome of its own (last)
    request, whatever happened to the other cities. *)
Lemma weather_loop_lookup (cities : list string) (n i : nat) (d : dict) (city : string) :
  fetched_last cities i city = true ->
  dict_get city (weather_loop env cfg n cities d) =
  Some (weather_entry (net env (n + i) (weather_url cfg city))).
Proof.
  revert n i d. induction cities as [|c rest IH]; intros n i d; unfold fetched_last.
  - destruct i; discriminate.
  - destruct i as [|i]; simpl.
    + rewrite andb_true_iff, negb_true_iff, String.eqb_eq, existsb_eqb_In.
      intros [<- Hnot]. rewrite weather_loop_skip by assumption.
      now rewrite dict_get_set_same, Nat.add_0_r.
    + intros H. rewrite <- Nat.add_succ_comm. now apply IH.
Qed.

(** A list of distinct cities gives a mapping with the cities in their order. *)
Lemma weather_loop_order (cities : list string) (n : nat) (d : dict) :
  NoDup (dict_keys d ++ cities) ->
  dict_keys (weather_loop env cfg n cities d) = (dict_keys d ++ cities)%list.
Proof.
  revert n d. induction cities as [|c rest IH]; intros n d Hnd; simpl.
  - now rewrite app_nil_r.
  - assert (Hc : dict_has c d = false).
    { destruct (dict_has c d) eqn:E; [|reflexivity].
      apply dict_has_keys in E. apply NoDup_remove_2 in Hnd.
      exfalso. apply Hnd. apply in_or_app. now left. }
    assert (Hk : dict_keys (dict_set c (weather_entry (net env n (weather_url cfg c))) d)
                 = (dict_keys d ++ [c])%list).
    { now rewrite dict_keys_set, Hc. }
    rewrite IH; rewrite Hk, <- app_assoc; [reflexivity | exact Hnd].
Qed.

End WeatherMapping.

Lemma dict_keys_get (k : string) (d : dict) :
  In k (dict_keys d) -> exists v, dict_get k d = Some v.
Proof.
  intros Hin. apply dict_has_keys in Hin. unfold dict_has in Hin.
  destruct (dict_get k d) as [v|]; [now exists v | discriminate].
Qed.

(** ** The weather client *)

(** C2. Whatever the city list and whatever the outcome of each request,
    [get_weather_data] returns a mapping in which every configured city has
    exactly one entry, every entry belongs to a configured city, and every
    entry is either a success record ([temp], [description], [icon]) or a
    failure record ([error]); distinct cities keep their order. *)
Theorem weather_mapping_complete (env : Env) (cfg : Config) (w : World) :
  exists d w',
    get_weather_data env cfg w = (w', Returned (VDict d))
    /\ (forall city, In city (CITIES cfg) ->
          exists record,
            dict_get city d = Some record /\ well_shaped record /\ count_key city d = 1)
    /\ (forall city record, In (city, record) d ->
          In city (CITIES cfg) /\ well_shaped record)
    /\ (NoDup (CITIES cfg) -> dict_keys d = CITIES cfg).
Proof.
  eexists. eexists. split; [apply get_weather_data_run|].
  set (d := weather_loop env cfg (length (http_log w)) (CITIES cfg) []).
  assert (Hshape : forall city record, In (city, record) d -> well_shaped record).
  { apply weather_loop_shaped. intros ? ? []. }
  assert (Hkeys : forall city, In city (dict_keys d) <-> In city (CITIES cfg)).
  { intros city. unfold d. rewrite weather_loop_keys. simpl. tauto. }
  assert (Hnd : NoDup (dict_keys d)).
  { apply weather_loop_NoDup. constructor. }
  split; [|split].
  - intros city Hin. apply Hkeys in Hin.
    destruct (dict_keys_get _ _ Hin) as [record Hget].
    exists record. split; [exact Hget|]. split.
    + apply (Hshape city). now apply dict_get_In.
    + now apply count_key_NoDup.
  - intros city record Hin. split; [|now apply (Hshape city)].
    apply Hkeys. unfold dict_keys. now apply (in_map fst) in Hin.
  - intros Hcities. apply (weather_loop_order env cfg (CITIES cfg) _ []). exact Hcities.
Qed.

(** C3. When the request of a city is answered with a status in 200..299
    and a JSON body holding [main.temp], [weather[0].description] and
    [weather[0].icon], the city's entry is the success record made of these
    three values. *)
Theorem weather_success_record (env : Env) (cfg : Config) (w : World)
    (i : nat) (city : string) (r : Response)
    (data main_ temp weather first description icon : value) :
  fetched_last (CITIES cfg) i city = true ->
  net env (length (http_log w) + i) (weather_url cfg city) = Answer r ->
  is_success (status_code r) = true ->
  body r = Json data ->
  subscript data "main" = Returned main_ ->
  subscript main_ "temp" = Returned temp ->
  subscript data "weather" = Returned weather ->
  subscript0 weather = Returned first ->
  subscript first "description" = Returned description ->
  subscript first "icon" = Returned icon ->
  exists d w',
    get_weather_data env cfg w = (w', Returned (VDict d))
    /\ dict_get city d =
       Some (VDict [("temp", temp); ("description", description); ("icon", icon)]).
Proof.
  intros Hlast Hnet Hok Hbody Hmain Htemp Hweather Hfirst Hdescription Hicon.
  eexists. eexists. split; [apply get_weather_data_run|].
  rewrite (weather_loop_lookup env cfg _ _ i _ city Hlast), Hnet.
  unfold weather_entry, fetched, weather_fields. rewrite Hok, Hbody.
  rewrite Hmain; simpl. rewrite Htemp; simpl. rewrite Hweather; simpl.
  rewrite Hfirst; simpl. rewrite Hdescription; simpl. rewrite Hicon. reflexivity.
Qed.

(** The stub provider's Paris: temperature 21.5, "clear sky", icon "01d". *)
Lemma weather_success_record_paris :
  exists d w',
    get_weather_data (env_with stub_weather) default_config initial_world
    = (w', Returned (VDict d))
    /\ dict_get "Paris" d =
       Some (VDict [("temp", VFloat 21.5%float); ("description", VStr "clear sky");
                    ("icon", VStr "01d")]).
Proof.
  apply (weather_success_record (env_with stub_weather) default_config initial_world
           1 "Paris" (mkResponse 200 (Json paris_body)) paris_body
           (VDict [("temp", VFloat 21.5%float)]) (VFloat 21.5%float)
           (VList [VDict [("description", VStr "clear sky"); ("icon", VStr "01d")]])
           (VDict [("description", VStr "clear sky"); ("icon", VStr "01d")])
           (VStr "clear sky") (VStr "01d")); reflexivity.
Defined.

(** C4. A city whose request fails gets a failure record: after a status
    outside 200..299 the message carries the status code, after any other
    failure it carries the text of the error.  The failure stops nothing:
    one request is made for every city of the list, every city has an entry,
    and the entry of each city is the record for the outcome of its own
    request. *)
Theorem weather_failure_isolated (env : Env) (cfg : Config) (w : World)
    (i : nat) (city : string) (f : failure) :
  fetched_last (CITIES cfg) i city = true ->
  fetch_fails weather_fields
    (net env (length (http_log w) + i) (weather_url cfg city)) f ->
  exists d w',
    get_weather_data env cfg w = (w', Returned (VDict d))
    /\ dict_get city d = Some (VDict [("error", VStr (failure_text "weather" f))])
    /\ (exists prefix, failure_text "weather" f = prefix ++ failure_detail f)
    /\ http_log w' = (http_log w ++ map (weather_url cfg) (CITIES cfg))%list
    /\ (forall other, In other (CITIES cfg) -> exists record, dict_get other d = Some record)
    /\ (forall j other, fetched_last (CITIES cfg) j other = true ->
          dict_get other d =
          Some (weather_entry (net env (length (http_log w) + j) (weather_url cfg other)))).
Proof.
  intros Hlast Hfails.
  eexists. eexists. split; [apply get_weather_data_run|].
  split; [|split; [|split; [|split]]].
  - rewrite (weather_loop_lookup env cfg _ _ i _ city Hlast).
    unfold weather_entry. now rewrite (fetched_fails _ _ _ _ Hfails).
  - apply failure_text_embeds.
  - reflexivity.
  - intros other Hin. apply dict_keys_get.
    apply weather_loop_keys. now right.
  - intros j other Hj. now apply weather_loop_lookup.
Qed.

(** The stub provider's Casablanca: status 404, and Paris is still served. *)
Lemma weather_failure_isolated_casablanca :
  exists d w',
    get_weather_data (env_with stub_weather) default_config initial_world
    = (w', Returned (VDict d))
    /\ dict_get "Casablanca" d =
       Some (VDict [("error", VStr "Could not retrieve weather: 404")])
    /\ (exists prefix, "Could not retrieve weather: 404" = prefix ++ "404")
    /\ http_log w' = map (weather_url default_config) ["Casablanca"; "Paris"; "New York"]
    /\ (forall other, In other (CITIES default_config) ->
          exists record, dict_get other d = Some record)
    /\ (forall j other, fetched_last (CITIES default_config) j other = true ->
          dict_get other d =
          Some (weather_entry (stub_weather j (weather_url default_config other)))).
Proof.
  apply (weather_failure_isolated (env_with stub_weather) default_config initial_world
           0 "Casablanca" (BadStatus 404)).
  - reflexivity.
  - exact (fails_status weather_fields
             (mkResponse 404 (Json (VDict [("message", VStr "city not found")])))
             eq_refl).
Defined.

(** ** The news client *)

(** C5. Whenever the news fetch fails (the request raises, the status is
    outside 200..299, the body is not JSON or has no [articles]), the result
    is a list of exactly one article, titled "Error fetching news", whose
    description carries the status code or the text of the error. *)
Theorem news_failure_sentinel (env : Env) (cfg : Config) (w : World) (f : failure) :
  fetch_fails articles_of (net env (length (http_log w)) (news_url cfg)) f ->
  exists description,
    get_news_headlines env cfg w =
    (log_request (news_url cfg) w,
     Returned (VList [VDict [("title", VStr "Error fetching news");
                             ("description", VStr description)]]))
    /\ description = failure_text "news" f
    /\ exists prefix, description = prefix ++ failure_detail f.
Proof.
  intros Hfails. exists (failure_text "news" f).
  split; [|split; [reflexivity | apply failure_text_embeds]].
  rewrite get_news_headlines_run. now rewrite (fetched_fails _ _ _ _ Hfails).
Qed.

(** A status 401 gives the one article with "401" in its description. *)
Lemma news_failure_sentinel_401 :
  (exists description,
     get_news_headlines (env_with stub_news_401) default_config initial_world =
     (log_request (news_url default_config) initial_world,
      Returned (VList [VDict [("title", VStr "Error fetching news");
                              ("description", VStr description)]]))
     /\ description = "Could not retrieve news: 401"
     /\ exists prefix, description = prefix ++ "401")
  /\ str_contains "401" "Could not retrieve news: 401" = true.
Proof.
  split; [|reflexivity].
  apply (news_failure_sentinel (env_with stub_news_401) default_config initial_world
           (BadStatus 401)).
  exact (fails_status articles_of
           (mkResponse 401 (Json (VDict [("status", VStr "error");
                                         ("code", VStr "apiKeyInvalid")])))
           eq_refl).
Defined.

(** C6, as the code has it.  On a successful fetch (status in 200..299, a
    JSON body with an [articles] entry) [get_news_headlines] makes the one
    request, which asks for [pageSize=3], and returns the value of [articles]
    as it came: the same articles in the same order, each with the fields it
    had, with or without a [url].  The code itself puts no bound on their
    number: it is the number of articles of the response. *)
Theorem news_success_passthrough (env : Env) (cfg : Config) (w : World)
    (articles : value) :
  fetch_succeeds articles_of (net env (length (http_log w)) (news_url cfg)) articles ->
  get_news_headlines env cfg w = (log_request (news_url cfg) w, Returned articles)
  /\ news_url cfg =
     "https://newsapi.org/v2/top-headlines?category=technology&language=en&pageSize=3&apiKey="
     ++ NEWSAPI_KEY cfg.
Proof.
  intros Hok. split; [|reflexivity].
  rewrite get_news_headlines_run. now rewrite (fetched_succeeds _ _ _ _ Hok).
Qed.

Lemma news_success_passthrough_four :
  get_news_headlines (env_with stub_news_four) default_config initial_world =
  (log_request (news_url default_config) initial_world,
   Returned (VList [article "one"; article "two"; article "three"; article "four"]))
  /\ news_url default_config =
     "https://newsapi.org/v2/top-headlines?category=technology&language=en&pageSize=3&apiKey="
     ++ NEWSAPI_KEY default_config.
Proof.
  apply (news_success_passthrough (env_with stub_news_four) default_config initial_world).
  apply (succeeds articles_of
           (mkResponse 200
              (Json (VDict [("status", VStr "ok");
                            ("articles", VList [article "one"; article "two";
                                                article "three"; article "four"])])))
           (VDict [("status", VStr "ok");
                   ("articles", VList [article "one"; article "two";
                                       article "three"; article "four"])]));
    reflexivity.
Defined.

(** The bound of 3 does not hold for every response: a successful response
    with four articles gives a result of length four. *)
Lemma news_length_bound_fails :
  exists w' items,
    get_news_headlines (env_with stub_news_four) default_config initial_world
    = (w', Returned (VList items))
    /\ length items = 4
    /\ ~ (length items <= 3)%nat.
Proof.
  eexists. eexists. split; [reflexivity|]. split; [reflexivity|].
  simpl. lia.
Qed.

(** ** The word-of-the-day client *)

(** C7. With the credential unset or empty, [get_word_of_the_day] makes no
    request (the world is left as it was) and returns, whatever the
    environment, the record with word "N/A" and the definition
    "WORDNIK_API_KEY not set.". *)
Theorem word_unset_shortcut (env : Env) (cfg : Config) (w : World) :
  WORDNIK_API_KEY cfg = None \/ WORDNIK_API_KEY cfg = Some "" ->
  get_word_of_the_day env cfg w =
  (w, Returned (VDict [("word", VStr "N/A");
                       ("definition", VStr "WORDNIK_API_KEY not set.")])).
Proof.
  intros H. apply get_word_of_the_day_unset.
  destruct H as [-> | ->]; reflexivity.
Qed.

Lemma word_unset_shortcut_default :
  get_word_of_the_day (env_with stub_500) default_config initial_world =
  (initial_world,
   Returned (VDict [("word", VStr "N/A");
                    ("definition", VStr "WORDNIK_API_KEY not set.")]))
  /\ str_contains "not set" "WORDNIK_API_KEY not set." = true.
Proof.
  split; [|reflexivity].
  apply (word_unset_shortcut (env_with stub_500) default_config initial_world).
  left. reflexivity.
Defined.

(** C8. With a credential set, whenever the fetch fails the result is the
    record with word "Error" and a definition that carries the status code
    (status outside 200..299) or the text of the error (anything else). *)
Theorem word_failure_record (env : Env) (cfg : Config) (w : World)
    (key : string) (f : failure) :
  WORDNIK_API_KEY cfg = Some key ->
  key <> "" ->
  fetch_fails word_fields (net env (length (http_log w)) (word_url key)) f ->
  exists definition,
    get_word_of_the_day env cfg w =
    (log_request (word_url key) w,
     Returned (VDict [("word", VStr "Error"); ("definition", VStr definition)]))
    /\ definition = failure_text "word of the day" f
    /\ exists prefix, definition = prefix ++ failure_detail f.
Proof.
  intros Hkey Hne Hfails. exists (failure_text "word of the day" f).
  split; [|split; [reflexivity | apply failure_text_embeds]].
  assert (Ht : truthy (WORDNIK_API_KEY cfg) = true).
  { rewrite Hkey. destruct key; [congruence | reflexivity]. }
  rewrite (get_word_of_the_day_run env cfg w Ht), Hkey. simpl.
  now rewrite (fetched_fails _ _ _ _ Hfails).
Qed.

Lemma word_failure_record_500 :
  exists definition,
    get_word_of_the_day (env_with stub_500) wordnik_config initial_world =
    (log_request (word_url "k3y") initial_world,
     Returned (VDict [("word", VStr "Error"); ("definition", VStr definition)]))
    /\ definition = "Could not retrieve word of the day: 500"
    /\ exists prefix, definition = prefix ++ "500".
Proof.
  apply (word_failure_record (env_with stub_500) wordnik_config initial_world
           "k3y" (BadStatus 500)).
  - reflexivity.
  - discriminate.
  - exact (fails_status word_fields
             (mkResponse 500 (NotJson "Expecting value: line 1 column 1 (char 0)"))
             eq_refl).
Defined.

(** ** Delivery *)

Lemma unset_truthy (s : option string) : unset s -> truthy s = false.
Proof. intros [-> | ->]; reflexivity. Qed.

(** C9. When the sender address, the sender password or the recipient
    address is unset or empty, [send_email] prints the notice
    "Email credentials not set. Skipping email delivery.", attempts no SMTP
    step and no request, and returns; the script then prints its last line
    and ends normally. *)
Theorem send_email_skips (env : Env) (cfg : Config) (html_content : string)
    (w : World) :
  unset (SENDER_EMAIL cfg) \/ unset (SENDER_PASSWORD cfg) \/ RECEIVER_EMAIL cfg = "" ->
  exists w',
    send_email env cfg html_content w = (w', Returned tt)
    /\ smtp_log w' = smtp_log w
    /\ http_log w' = http_log w
    /\ stdout w' =
       (stdout w ++ ["Email credentials not set. Skipping email delivery."])%list
    /\ (_ <- send_email env cfg html_content ;; print "Script finished.") w =
       (log_print "Script finished." w', Returned tt).
Proof.
  intros H.
  assert (Hall : (truthy (SENDER_EMAIL cfg) && truthy (SENDER_PASSWORD cfg)
                  && truthy (Some (RECEIVER_EMAIL cfg)))%bool = false).
  { destruct H as [H|[H|H]].
    - now rewrite (unset_truthy _ H).
    - rewrite (unset_truthy _ H). apply andb_false_iff. left. apply andb_false_r.
    - rewrite H. apply andb_false_r. }
  exists (log_print "Email credentials not set. Skipping email delivery." w).
  unfold bind, send_email. rewrite Hall. simpl.
  repeat split; reflexivity.
Qed.

Lemma send_email_skips_default :
  exists w',
    send_email (env_with stub_500) default_config "<html></html>" initial_world
    = (w', Returned tt)
    /\ smtp_log w' = []
    /\ http_log w' = []
    /\ stdout w' = ["Email credentials not set. Skipping email delivery."]
    /\ (_ <- send_email (env_with stub_500) default_config "<html></html>" ;;
        print "Script finished.") initial_world =
       (log_print "Script finished." w', Returned tt).
Proof.
  apply (send_email_skips (env_with stub_500) default_config "<html></html>"
           initial_world).
  left. left. reflexivity.
Defined.

(** ** Formatting *)

Lemma dict_has_true (k : string) (d : dict) :
  dict_has k d = true -> exists v, dict_get k d = Some v.
Proof.
  unfold dict_has. destruct (dict_get k d) as [v|]; [now exists v | discriminate].
Qed.

Lemma dict_has_false (k : string) (d : dict) :
  dict_has k d = false -> dict_get k d = None.
Proof.
  unfold dict_has. destruct (dict_get k d); [discriminate | reflexivity].
Qed.

Lemma comprehension_total {A B} (f : A -> result B) (R : A -> B -> Prop)
    (xs : list A) :
  Forall (fun x => exists y, f x = Returned y /\ R x y) xs ->
  exists ys, comprehension f xs = Returned ys /\ Forall2 R xs ys.
Proof.
  induction 1 as [|x rest [y [Hy HR]] _ [ys [Hys HRs]]]; simpl.
  - exists []. split; [reflexivity | constructor].
  - exists (y :: ys). rewrite Hy; simpl. rewrite Hys; simpl.
    split; [reflexivity | now constructor].
Qed.

Lemma get_weather_html_renderable (env : Env) (city : string) (record : value) :
  renderable record ->
  exists part,
    get_weather_html env city record = Returned part
    /\ weather_block env city record part.
Proof.
  intros [fields [-> Hshape]]. unfold get_weather_html; simpl.
  destruct (dict_has "error" fields) eqn:Herr.
  - destruct (dict_has_true _ _ Herr) as [error Hget]. rewrite Hget.
    eexists. split; [reflexivity | now apply block_error].
  - apply dict_has_false in Herr.
    destruct Hshape as [Hbad | [Hicon [Htemp [s Hdesc]]]]; [discriminate|].
    destruct (dict_has_true _ _ Hicon) as [icon Hi].
    destruct (dict_has_true _ _ Htemp) as [temp Ht].
    rewrite Hi, Ht, Hdesc; simpl.
    eexists. split; [reflexivity | now apply block_forecast].
Qed.

Lemma get_news_html_record (env : Env) (fields : dict) :
  get_news_html env (VDict fields) = Returned (news_block env fields).
Proof.
  unfold get_news_html, news_block, or_default; simpl.
  destruct (dict_get "url" fields), (dict_get "title" fields),
    (dict_get "description" fields); reflexivity.
Qed.

Lemma news_parts_records (env : Env) (articles : list value) :
  Forall is_record articles ->
  comprehension (get_news_html env) articles =
  Returned (map (fun a => news_block env (fields_of a)) articles).
Proof.
  induction 1 as [|a rest [fields ->] _ IH]; simpl; [reflexivity|].
  rewrite get_news_html_record; simpl. now rewrite IH.
Qed.

(** C10, as the code has it.  Over a briefing whose weather records have an
    [error] entry or have [icon], [temp] and a [description] that is a [str],
    whose news entries are records, and whose word record has no [word] or a
    [word] that is a [str], [create_email_body] returns the page: each city
    gets the error block exactly when its record has an [error] entry, each
    article is shown with "#", "N/A" and "No description available." for a
    missing [url], [title] and [description], and the word and its definition
    are "N/A" when missing. *)
Theorem create_email_body_renders (env : Env) (weather : dict)
    (articles : list value) (word : dict) :
  Forall (fun entry => renderable (snd entry)) weather ->
  Forall is_record articles ->
  (dict_get "word" word = None \/ exists s, dict_get "word" word = Some (VStr s)) ->
  exists weather_parts word_text,
    create_email_body env (VDict weather) (VList articles) (VDict word) =
    Returned (page_0 ++ strftime_now env "%A, %B %d, %Y" ++ page_1
              ++ join weather_parts ++ page_2
              ++ join (map (fun a => news_block env (fields_of a)) articles) ++ page_3
              ++ str_title env word_text ++ page_4
              ++ format_value env (or_default (dict_get "definition" word) (VStr "N/A"))
              ++ page_5)
    /\ Forall2 (fun entry part => weather_block env (fst entry) (snd entry) part)
         weather weather_parts
    /\ or_default (dict_get "word" word) (VStr "N/A") = VStr word_text.
Proof.
  intros Hweather Harticles Hword.
  assert (Hparts : exists parts,
             comprehension (fun '(city, data) => get_weather_html env city data) weather
             = Returned parts
             /\ Forall2 (fun entry part => weather_block env (fst entry) (snd entry) part)
                  weather parts).
  { apply comprehension_total. eapply Forall_impl; [|exact Hweather].
    intros [city record] Hr. now apply get_weather_html_renderable. }
  destruct Hparts as [parts [Hrun Hblocks]].
  assert (Htitle : exists word_text,
             or_default (dict_get "word" word) (VStr "N/A") = VStr word_text).
  { destruct Hword as [-> | [s ->]]; simpl; eauto. }
  destruct Htitle as [word_text Htext].
  exists parts, word_text. split; [|split; assumption].
  unfold create_email_body; simpl. rewrite Hrun; simpl.
  rewrite (news_parts_records env articles Harticles); simpl.
  unfold or_default in Htext |- *.
  destruct (dict_get "word" word) as [v|]; simpl;
    [subst v | injection Htext as <-]; simpl;
    destruct (dict_get "definition" word); reflexivity.
Qed.

Lemma create_email_body_renders_sample :
  exists weather_parts word_text,
    create_email_body (env_with stub_weather) (VDict sample_weather)
      (VList sample_articles) (VDict sample_word) =
    Returned (page_0 ++ "Wednesday, November 04, 2026" ++ page_1
              ++ join weather_parts ++ page_2
              ++ join [news_html_0 ++ "#" ++ news_html_1 ++ "Rocq 9.3 is out"
                       ++ news_html_2 ++ "No description available." ++ news_html_3]
              ++ page_3 ++ word_text ++ page_4 ++ "a short account" ++ page_5)
    /\ Forall2 (fun entry part =>
                  weather_block (env_with stub_weather) (fst entry) (snd entry) part)
         sample_weather weather_parts
    /\ VStr "N/A" = VStr word_text.
Proof.
  apply (create_email_body_renders (env_with stub_weather) sample_weather
           sample_articles sample_word).
  - constructor; [|constructor; [|constructor]].
    + eexists. split; [reflexivity|]. left. reflexivity.
    + eexists. split; [reflexivity|]. right.
      split; [reflexivity|]. split; [reflexivity|]. eexists. reflexivity.
  - constructor; [|constructor]. eexists. reflexivity.
  - left. reflexivity.
Defined.

(** A record with [temp], [description] and [icon] is not enough: with a
    description that is not a [str] the call raises; such a record is what
    [get_weather_data] stores for a body with [null] as description, and the
    script then ends with the exception. *)
Lemma create_email_body_raises :
  dict_has "temp" null_description = true
  /\ dict_has "description" null_description = true
  /\ dict_has "icon" null_description = true
  /\ dict_has "error" null_description = false
  /\ create_email_body (env_with stub_weather_null)
       (VDict [("Paris", VDict null_description)]) (VList [])
       (VDict [("word", VStr "brief"); ("definition", VStr "a short account")])
     = Raised (PyError AttributeError "'NoneType' object has no attribute 'title'")
  /\ (exists w' d,
        get_weather_data (env_with stub_weather_null) default_config initial_world
        = (w', Returned (VDict d))
        /\ dict_get "Paris" d = Some (VDict null_description))
  /\ (exists w',
        main (env_with stub_weather_null) default_config initial_world
        = (w', Raised (PyError AttributeError
                         "'NoneType' object has no attribute 'title'"))).
Proof.
  repeat (split; [reflexivity|]).
  split.
  - eexists. eexists. split; reflexivity.
  - eexists. vm_compute. reflexivity.
Qed.

(** ** The client boundary *)

Lemma fetched_cases (parse : value -> result value) (on_failure : failure -> value)
    (o : http_outcome) :
  (exists f, fetch_fails parse o f /\ fetched parse on_failure o = on_failure f)
  \/ (exists a, fetch_succeeds parse o a /\ fetched parse on_failure o = a).
Proof.
  destruct (fetch_outcome parse o) as [[f Hf] | [a Ha]].
  - left. exists f. split; [exact Hf | now apply fetched_fails].
  - right. exists a. split; [exact Ha | now apply fetched_succeeds].
Qed.

Lemma get_word_of_the_day_returns (env : Env) (cfg : Config) (w : World) :
  exists word definition w',
    get_word_of_the_day env cfg w = (w', Returned (word_record word definition)).
Proof.
  destruct (truthy (WORDNIK_API_KEY cfg)) eqn:Hkey.
  - rewrite (get_word_of_the_day_run env cfg w Hkey).
    match goal with |- context [fetched word_fields word_failure ?o] =>
      destruct (fetched_cases word_fields word_failure o)
        as [[f [_ ->]] | [a [Ha ->]]]
    end.
    + unfold word_failure. eauto.
    + destruct Ha as [r data a _ _ Hp].
      destruct (word_fields_shaped _ _ Hp) as [word [definition ->]]. eauto.
  - rewrite (get_word_of_the_day_unset env cfg w Hkey). eauto.
Qed.

(** C1, as the code has it.  Whatever the outcome of each request, none of
    the three clients lets an exception out, and each runs after the one
    before it: [get_weather_data] returns a mapping of success and failure
    records, [get_news_headlines] returns the one-article error list when
    its fetch fails and otherwise the value the body has under [articles],
    as it is, and [get_word_of_the_day] returns a record with [word] and
    [definition].  Every failure ends up as a text inside the value
    returned. *)
Theorem clients_always_return (env : Env) (cfg : Config) (w : World) :
  (exists d w',
     get_weather_data env cfg w = (w', Returned (VDict d))
     /\ forall city record, In (city, record) d -> well_shaped record)
  /\ (exists news w',
        get_news_headlines env cfg w = (w', Returned news)
        /\ ((exists f,
               fetch_fails articles_of (net env (length (http_log w)) (news_url cfg)) f
               /\ news = news_error (failure_text "news" f))
            \/ fetch_succeeds articles_of
                 (net env (length (http_log w)) (news_url cfg)) news))
  /\ (exists word definition w',
        get_word_of_the_day env cfg w =
        (w', Returned (VDict [("word", word); ("definition", definition)])))
  /\ (exists weather news word w',
        (weather <- get_weather_data env cfg ;;
         news <- get_news_headlines env cfg ;;
         word_day <- get_word_of_the_day env cfg ;;
         ret (weather, news, word_day)) w = (w', Returned (weather, news, word))).
Proof.
  split; [|split; [|split]].
  - eexists. eexists. split; [apply get_weather_data_run|].
    apply weather_loop_shaped. intros ? ? [].
  - eexists. eexists. split; [apply get_news_headlines_run|].
    match goal with |- context [fetched articles_of ?h ?o] =>
      destruct (fetched_cases articles_of h o) as [[f [Hf ->]] | [a [Ha ->]]]
    end.
    + left. exists f. split; [exact Hf | reflexivity].
    + right. exact Ha.
  - apply get_word_of_the_day_returns.
  - unfold bind. rewrite get_weather_data_run, get_news_headlines_run.
    match goal with |- context [get_word_of_the_day env cfg ?w1] =>
      destruct (get_word_of_the_day_returns env cfg w1)
        as [word [definition [w' ->]]]
    end.
    unfold ret. eauto.
Qed.

(** The value returned need not have the shape of a list of articles: a
    successful response with [null] under [articles] makes
    [get_news_headlines] return [None], and the script then ends with the
    [TypeError] of the loop over it. *)
Lemma news_shape_not_kept :
  (exists w',
     get_news_headlines (env_with stub_news_null) default_config initial_world
     = (w', Returned VNone))
  /\ is_article_list VNone = false
  /\ (exists w',
        main (env_with stub_news_null) default_config initial_world
        = (w', Raised (PyError TypeError "'NoneType' object is not iterable"))).
Proof.
  split; [eexists; reflexivity|]. split; [reflexivity|].
  eexists. vm_compute. reflexivity.
Qed.

(** ** The SMTP session *)

Lemma send_email_unset (env : Env) (cfg : Config) (html_content : string) (w : World) :
  credentials_set cfg = false ->
  send_email env cfg html_content w =
  (log_print "Email credentials not set. Skipping email delivery." w, Returned tt).
Proof.
  intros H. unfold send_email.
  change (truthy (SENDER_EMAIL cfg) && truthy (SENDER_PASSWORD cfg)
          && truthy (Some (RECEIVER_EMAIL cfg)))%bool with (credentials_set cfg).
  now rewrite H.
Qed.

(** With the credentials set, [send_email] is the session with its exception,
    if any, turned into a printed line. *)
Lemma send_email_set (env : Env) (cfg : Config) (html_content : string) (w : World) :
  credentials_set cfg = true ->
  send_email env cfg html_content w =
  match smtp_session env cfg html_content w with
  | (w1, Returned _) => (w1, Returned tt)
  | (w1, Raised e) => (log_print (delivery_report e) w1, Returned tt)
  end.
Proof.
  intros H. unfold send_email.
  change (truthy (SENDER_EMAIL cfg) && truthy (SENDER_PASSWORD cfg)
          && truthy (Some (RECEIVER_EMAIL cfg)))%bool with (credentials_set cfg).
  rewrite H. change (negb true) with false. cbv iota zeta. unfold try_except.
  change (with_smtp env "smtp.gmail.com" 587 _) with (smtp_session env cfg html_content).
  destruct (smtp_session env cfg html_content w) as [w1 [[]|e]]; [reflexivity|].
  destruct e as [code m|cls m]; [reflexivity | destruct cls; reflexivity].
Qed.

(** The cases of a session: which step, if any, is the first to raise. *)
Ltac session_cases :=
  unfold smtp_session, with_smtp, bind, smtp_do, print;
  repeat match goal with
    | |- context [match smtp ?env ?ev with _ => _ end] =>
        let E := fresh "Hstep" in destruct (smtp env ev) eqn:E; simpl
    end.


(** Whatever the server does, [send_email] returns: it makes no request,
    prints at least one line, and only adds to the SMTP log. *)
Lemma send_email_outcome (env : Env) (cfg : Config) (html_content : string)
    (w : World) :
  exists w' lines events,
    send_email env cfg html_content w = (w', Returned tt)
    /\ http_log w' = http_log w
    /\ stdout w' = (stdout w ++ lines)%list /\ lines <> []
    /\ smtp_log w' = (smtp_log w ++ events)%list.
Proof.
  destruct (credentials_set cfg) eqn:Hset.
  - rewrite (send_email_set env cfg html_content w Hset).
    session_cases;
      (eexists; eexists; eexists; split; [reflexivity|]; simpl;
       split; [reflexivity|];
       split; [rewrite <- ?app_assoc; reflexivity|];
       split; [discriminate | rewrite <- ?app_assoc; reflexivity]).
  - rewrite (send_email_unset env cfg html_content w Hset).
    exists (log_print "Email credentials not set. Skipping email delivery." w).
    exists ["Email credentials not set. Skipping email delivery."], [].
    simpl. rewrite app_nil_r.
    split; [reflexivity|]. split; [reflexivity|]. split; [reflexivity|].
    split; [discriminate | reflexivity].
Qed.

(** ** The whole run *)

Lemma log_request_requests (url : string) (w : World) :
  log_request url w = log_requests [url] w.
Proof. reflexivity. Qed.

Lemma log_requests_app (a b : list string) (w : World) :
  log_requests b (log_requests a w) = log_requests (a ++ b) w.
Proof. unfold log_requests; simpl. now rewrite app_assoc. Qed.

Lemma log_requests_length (urls : list string) (w : World) :
  length (http_log (log_requests urls w)) = length (http_log w) + length urls.
Proof. unfold log_requests; simpl. apply length_app. Qed.

(** [main], step by step: the first line, the requests of the three clients,
    the second line, the page, and, when there is a page, the delivery and
    the last line. *)
Lemma main_run (env : Env) (cfg : Config) (w : World) :
  main env cfg w =
  let w2 := log_print "Creating email body..."
              (log_requests (main_requests cfg)
                 (log_print "Fetching data for the daily briefing..." w)) in
  let '(weather, news, word_day) := briefing env cfg (length (http_log w)) in
  match create_email_body env weather news word_day with
  | Raised e => (w2, Raised e)
  | Returned email_body =>
      match send_email env cfg email_body (log_print "Sending email..." w2) with
      | (w3, Returned _) => (log_print "Script finished." w3, Returned tt)
      | (w3, Raised e) => (w3, Raised e)
      end
  end.
Proof.
  unfold main, briefing, main_requests, bind.
  unfold print at 1. rewrite get_weather_data_run, get_news_headlines_run.
  rewrite log_request_requests, log_requests_app.
  rewrite log_requests_length, length_map. simpl http_log.
  destruct (truthy (WORDNIK_API_KEY cfg)) eqn:Hkey.
  - rewrite (get_word_of_the_day_run env cfg _ Hkey).
    rewrite log_request_requests, log_requests_app, log_requests_length.
    rewrite length_app, length_map. simpl length. rewrite <- app_assoc.
    rewrite Nat.add_assoc.
    unfold print at 1, lift.
    destruct (create_email_body env _ _ _) as [email_body|e]; [|reflexivity].
    unfold print.
    destruct (send_email env cfg email_body _) as [w3 [[]|e]]; reflexivity.
  - rewrite (get_word_of_the_day_unset env cfg _ Hkey).
    unfold print at 1, lift.
    destruct (create_email_body env _ _ _) as [email_body|e]; [|reflexivity].
    unfold print.
    destruct (send_email env cfg email_body _) as [w3 [[]|e]]; reflexivity.
Qed.




Lemma dict_has_existsb (k : string) (d : dict) :
  dict_has k d = existsb (String.eqb k) (dict_keys d).
Proof.
  unfold dict_has. induction d as [|[k' v'] rest IH]; simpl; [reflexivity|].
  destruct (String.eqb k k'); [reflexivity | exact IH].
Qed.

(** The keys of the mapping, whatever the outcomes: the cities in the order
    of their first occurrence. *)
Lemma weather_loop_first (env : Env) (cfg : Config) (cities : list string)
    (n : nat) (d : dict) :
  dict_keys (weather_loop env cfg n cities d) =
  first_occurrences_from (dict_keys d) cities.
Proof.
  revert n d. induction cities as [|c rest IH]; intros n d; simpl; [reflexivity|].
  now rewrite IH, dict_keys_set, dict_has_existsb.
Qed.

(** ** Delivery, step by step *)










(** ** The run as a whole *)

(** X6. Whatever the answers, one run makes the same requests in the same
    order, each once: one per city of the list, then the news, then, when
    its credential is set, the word of the day; nothing is retried and
    delivery makes no request. *)
Theorem main_request_sequence (env : Env) (cfg : Config) (w : World) :
  http_log (fst (main env cfg w)) = (http_log w ++ main_requests cfg)%list.
Proof.
  rewrite main_run. unfold briefing. cbv zeta.
  destruct (create_email_body env _ _ _) as [email_body|e]; [|reflexivity].
  match goal with |- context [send_email env cfg email_body ?w2] =>
    destruct (send_email_outcome env cfg email_body w2)
      as [w3 [lines [events [-> [Hhttp _]]]]]
  end.
  simpl. rewrite Hhttp. reflexivity.
Qed.





(** ** More of the clients *)

(** X9. With a credential set, when the request is answered with a status
    in 200..299 and a JSON body holding [word] and [definitions[0].text],
    [get_word_of_the_day] makes that one request and returns the record of
    the word and the text of its first definition. *)
Theorem word_success_record (env : Env) (cfg : Config) (w : World) (key : string)
    (r : Response) (data word definitions first text : value) :
  WORDNIK_API_KEY cfg = Some key ->
  key <> "" ->
  net env (length (http_log w)) (word_url key) = Answer r ->
  is_success (status_code r) = true ->
  body r = Json data ->
  subscript data "word" = Returned word ->
  subscript data "definitions" = Returned definitions ->
  subscript0 definitions = Returned first ->
  subscript first "text" = Returned text ->
  get_word_of_the_day env cfg w =
  (log_request (word_url key) w,
   Returned (VDict [("word", word); ("definition", text)])).
Proof.
  intros Hkey Hne Hnet Hok Hbody Hword Hdefs Hfirst Htext.
  assert (Ht : truthy (WORDNIK_API_KEY cfg) = true).
  { rewrite Hkey. destruct key; [congruence | reflexivity]. }
  rewrite (get_word_of_the_day_run env cfg w Ht), Hkey. simpl format_optional.
  rewrite Hnet. unfold fetched, word_fields. rewrite Hok, Hbody.
  rewrite Hword; simpl. rewrite Hdefs; simpl. rewrite Hfirst; simpl.
  now rewrite Htext.
Qed.

Lemma word_success_record_sample :
  get_word_of_the_day (env_with stub_word) wordnik_config initial_world =
  (log_request (word_url "k3y") initial_world,
   Returned (VDict [("word", VStr "brief"); ("definition", VStr "a short account")])).
Proof.
  apply (word_success_record (env_with stub_word) wordnik_config initial_world "k3y"
           (mkResponse 200 (Json word_body)) word_body (VStr "brief")
           (VList [VDict [("text", VStr "a short account")]])
           (VDict [("text", VStr "a short account")]) (VStr "a short account"));
    try reflexivity.
  discriminate.
Defined.

(** X10. A word that comes with an empty list of definitions is reported
    as an error, although the word itself was received: the record has the
    word "Error" and the definition
    "An error occurred: list index out of range". *)
Theorem word_without_definition (env : Env) (cfg : Config) (w : World) (key : string)
    (r : Response) (data word : value) :
  WORDNIK_API_KEY cfg = Some key ->
  key <> "" ->
  net env (length (http_log w)) (word_url key) = Answer r ->
  is_success (status_code r) = true ->
  body r = Json data ->
  subscript data "word" = Returned word ->
  subscript data "definitions" = Returned (VList []) ->
  get_word_of_the_day env cfg w =
  (log_request (word_url key) w,
   Returned (VDict [("word", VStr "Error");
                    ("definition", VStr "An error occurred: list index out of range")])).
Proof.
  intros Hkey Hne Hnet Hok Hbody Hword Hdefs.
  assert (Ht : truthy (WORDNIK_API_KEY cfg) = true).
  { rewrite Hkey. destruct key; [congruence | reflexivity]. }
  rewrite (get_word_of_the_day_run env cfg w Ht), Hkey. simpl format_optional.
  rewrite Hnet. unfold fetched, word_fields. rewrite Hok, Hbody.
  rewrite Hword; simpl. now rewrite Hdefs.
Qed.

Lemma word_without_definition_sample :
  get_word_of_the_day (env_with stub_word_undefined) wordnik_config initial_world =
  (log_request (word_url "k3y") initial_world,
   Returned (VDict [("word", VStr "Error");
                    ("definition", VStr "An error occurred: list index out of range")])).
Proof.
  apply (word_without_definition (env_with stub_word_undefined) wordnik_config
           initial_world "k3y"
           (mkResponse 200 (Json (VDict [("word", VStr "brief");
                                         ("definitions", VList [])])))
           (VDict [("word", VStr "brief"); ("definitions", VList [])])
           (VStr "brief"));
    try reflexivity.
  discriminate.
Defined.

(** X11. A successful answer whose JSON object has no [main] entry gives
    the city a failure record whose message is the quoted name of the
    missing key: "An error occurred: 'main'". *)
Theorem weather_missing_main (env : Env) (cfg : Config) (w : World)
    (i : nat) (city : string) (r : Response) (fields : dict) :
  fetched_last (CITIES cfg) i city = true ->
  net env (length (http_log w) + i) (weather_url cfg city) = Answer r ->
  is_success (status_code r) = true ->
  body r = Json (VDict fields) ->
  dict_get "main" fields = None ->
  exists d w',
    get_weather_data env cfg w = (w', Returned (VDict d))
    /\ dict_get city d = Some (VDict [("error", VStr "An error occurred: 'main'")]).
Proof.
  intros Hlast Hnet Hok Hbody Hmain.
  eexists. eexists. split; [apply get_weather_data_run|].
  rewrite (weather_loop_lookup env cfg _ _ i _ city Hlast), Hnet.
  unfold weather_entry, fetched, weather_fields. rewrite Hok, Hbody. simpl.
  now rewrite Hmain.
Qed.

Lemma weather_missing_main_sample :
  exists d w',
    get_weather_data (env_with stub_no_main) default_config initial_world
    = (w', Returned (VDict d))
    /\ dict_get "New York" d = Some (VDict [("error", VStr "An error occurred: 'main'")]).
Proof.
  apply (weather_missing_main (env_with stub_no_main) default_config initial_world
           2 "New York" (mkResponse 200 (Json (VDict [("cod", VInt 200)])))
           [("cod", VInt 200)]); reflexivity.
Defined.

(** X12. An unset weather or news key is not noticed: with the variables
    unset, the requests are made all the same, with the placeholder keys of
    the configuration in their URLs (and the city names as they are
    written). *)
Theorem unset_keys_still_requested (env : Env) (getenv : string -> option string)
    (w : World) :
  getenv "OPENWEATHERMAP_API_KEY" = None ->
  getenv "NEWSAPI_KEY" = None ->
  http_log (fst (get_weather_data env (load_config getenv) w)) =
  (http_log w ++
   ["https://api.openweathermap.org/data/2.5/weather?q=Casablanca&appid=your_openweather_api_key&units=metric";
    "https://api.openweathermap.org/data/2.5/weather?q=Paris&appid=your_openweather_api_key&units=metric";
    "https://api.openweathermap.org/data/2.5/weather?q=New York&appid=your_openweather_api_key&units=metric"])%list
  /\ http_log (fst (get_news_headlines env (load_config getenv) w)) =
     (http_log w ++
      ["https://newsapi.org/v2/top-headlines?category=technology&language=en&pageSize=3&apiKey=your_news_api_key"])%list.
Proof.
  intros Hweather Hnews.
  rewrite get_weather_data_run, get_news_headlines_run. simpl.
  unfold weather_url, news_url, getenv_default. simpl.
  unfold getenv_default. now rewrite Hweather, Hnews.
Qed.

Lemma unset_keys_still_requested_sample :
  http_log (fst (get_weather_data (env_with stub_outage) default_config initial_world)) =
  ["https://api.openweathermap.org/data/2.5/weather?q=Casablanca&appid=your_openweather_api_key&units=metric";
   "https://api.openweathermap.org/data/2.5/weather?q=Paris&appid=your_openweather_api_key&units=metric";
   "https://api.openweathermap.org/data/2.5/weather?q=New York&appid=your_openweather_api_key&units=metric"]
  /\ http_log (fst (get_news_headlines (env_with stub_outage) default_config initial_world)) =
     ["https://newsapi.org/v2/top-headlines?category=technology&language=en&pageSize=3&apiKey=your_news_api_key"].
Proof.
  apply (unset_keys_still_requested (env_with stub_outage) (fun _ => None) initial_world);
    reflexivity.
Defined.


(** X14. Duplicates in the city list: one request is made for every element
    of the list, repeated or not, while the mapping has one entry per
    distinct city, at the place of the city's first occurrence and with the
    record of its last request. *)
Theorem weather_repeated_city (env : Env) (cfg : Config) (w : World) :
  exists d w',
    get_weather_data env cfg w = (w', Returned (VDict d))
    /\ http_log w' = (http_log w ++ map (weather_url cfg) (CITIES cfg))%list
    /\ dict_keys d = first_occurrences (CITIES cfg)
    /\ (forall i city, fetched_last (CITIES cfg) i city = true ->
          dict_get city d =
          Some (weather_entry (net env (length (http_log w) + i) (weather_url cfg city)))).
Proof.
  eexists. eexists. split; [apply get_weather_data_run|].
  split; [reflexivity|]. split.
  - apply (weather_loop_first env cfg (CITIES cfg) (length (http_log w)) []).
  - intros i city Hlast. now apply weather_loop_lookup.
Qed.


